(** * rltoolkit: replay-buffer managers, training glue and pickling helpers

    A shallow embedding of the Python sources

      - [rltoolkit/data/buffer/vecbuf.py]   (vector replay buffers),
      - [examples/atari/atari_rainbow.py]   ([train_fn], the beta schedule),
      - [rltoolkit/cleanrl/agent/ppo_penalty.py] and [rltoolkit/cleanrl/rl_args.py],
      - [rltoolkit/envs/utils.py]           ([CloudpickleWrapper]),

    together with models of the single-buffer engine and of the priority
    index, which the repository describes in its specification only.

    Python integers are [Z]; Python floats are binary64 values, represented
    by the Standard Library's [spec_float] and computed with its reference
    implementation of the IEEE operations ([SFsub], [SFmul], [SFdiv] at
    precision 53 and maximal exponent 1024).  Exceptions are values of [exn];
    code that mutates objects or calls collaborators is written in a small
    state-and-exception monad. *)

From Stdlib Require Import ZArith QArith Qpower Lia Lqa String List Bool SpecFloat.
From stdpp Require Import base option list gmap strings.

Local Open Scope Z_scope.

(** ** The Python runtime the sources rely on *)

Module Py.

(** Exceptions: the built-in ones the sources can raise, and the kinds of
    error the specification names for the buffer core.  [SystemError] is the
    interpreter's internal error; here it stands for a reference to an object
    that was never allocated, which no Python program can hold. *)
Inductive exn : Type :=
| AssertionError
| ZeroDivisionError
| OverflowError
| ValueError
| TypeError
| AttributeError (attr : string)
| IndexError
| EmptyBufferError
| ConfigurationError
| SystemError.

Inductive result (A : Type) : Type :=
| Return (a : A)
| Raise (e : exn).
Arguments Return {A} a.
Arguments Raise {A} e.

(** A computation over a mutable state [S]: it returns a value or raises,
    and in both cases leaves a state behind (a Python exception does not roll
    back the mutations made before it). *)
Definition M (S A : Type) : Type := S -> result A * S.

Definition ret {S A} (a : A) : M S A := fun s => (Return a, s).

Definition raise {S A} (e : exn) : M S A := fun s => (Raise e, s).

Definition bind {S A B} (c : M S A) (k : A -> M S B) : M S B :=
  fun s => match c s with
           | (Return a, s') => k a s'
           | (Raise e, s') => (Raise e, s')
           end.

(** A pure fallible computation used inside a stateful one. *)
Definition lift {S A} (r : result A) : M S A := fun s => (r, s).

Definition get {S} : M S S := fun s => (Return s, s).

Definition put {S} (s : S) : M S unit := fun _ => (Return tt, s).

(** [[c for _ in range(n)]]: runs [c] [n] times and collects the results. *)
Fixpoint replicateM {S A} (n : nat) (c : M S A) : M S (list A) :=
  match n with
  | O => ret []
  | Datatypes.S n' => bind c (fun a => bind (replicateM n' c) (fun r => ret (a :: r)))
  end.

(** [for x in l: body(x)]. *)
Fixpoint for_each {S A} (l : list A) (body : A -> M S unit) : M S unit :=
  match l with
  | [] => ret tt
  | x :: r => bind (body x) (fun _ => for_each r body)
  end.

(** [assert cond]: raises [AssertionError] when the condition is false
    (assertions enabled, the interpreter's default). *)
Definition assert {S} (cond : bool) : M S unit :=
  if cond then ret tt else raise AssertionError.

(** Python values passed around untyped ([Any]): configuration options,
    attribute values. *)
Inductive pyval : Type :=
| PyNone
| PyBool (b : bool)
| PyInt (z : Z)
| PyFloat (f : spec_float)
| PyStr (s : string).

(** [bool(v)], the truth value an [if] statement tests. *)
Definition truthy (v : pyval) : bool :=
  match v with
  | PyNone => false
  | PyBool b => b
  | PyInt z => negb (z =? 0)
  | PyFloat (S754_zero _) => false
  | PyFloat _ => true
  | PyStr s => negb (String.eqb s EmptyString)
  end.

(** ** binary64 arithmetic *)

Definition prec : Z := 53.
Definition emax : Z := 1024.

(** An integer as an unrounded floating-point number (exponent 0). *)
Definition int_to_SF (z : Z) : spec_float :=
  match z with
  | Z0 => S754_zero false
  | Zpos p => S754_finite false p 0
  | Zneg p => S754_finite true p 0
  end.

(** [a / b] on two [int]s: the binary64 nearest to the exact quotient
    (ties to even); [ZeroDivisionError] for a zero divisor and
    [OverflowError] when the quotient is too large for a float. *)
Definition int_truediv (a b : Z) : result spec_float :=
  if b =? 0 then Raise ZeroDivisionError
  else match SFdiv prec emax (int_to_SF a) (int_to_SF b) with
       | S754_infinity _ => Raise OverflowError
       | q => Return q
       end.

(** [float(z)] for an [int] operand of a float operation: the nearest
    binary64, or [OverflowError] when the integer is too large. *)
Definition float_of_int (z : Z) : result spec_float :=
  match binary_normalize prec emax z 0 false with
  | S754_infinity _ => Raise OverflowError
  | x => Return x
  end.


(** [int(np.ceil(x))]: the ceiling of a binary64 is an integer-valued
    binary64, which [int] converts exactly, so the two calls are one function
    into [Z].  Infinities and NaN cannot be converted. *)
Definition int_ceil (x : spec_float) : result Z :=
  match x with
  | S754_zero _ => Return 0
  | S754_finite s m e =>
      let v := if s then Zneg m else Zpos m in
      Return (if 0 <=? e then v * 2 ^ e else - ((- v) / 2 ^ (- e)))
  | S754_infinity _ => Raise OverflowError
  | S754_nan => Raise ValueError
  end.


End Py.

Notation "'let*' x ':=' c 'in' k" := (Py.bind c (fun x => k))
  (at level 10, x name, c at level 100, k at level 200,
   format "'[v' 'let*'  x  ':='  c  'in' '/' k ']'").

(** ** The single-buffer engine *)

Module ReplayBuffer.

Section Engine.

(** The type of a stored transition. *)
Context {T : Type}.

(** A buffer of fixed capacity [maxsize]: one slot per index, the write
    cursor [index] and the number [size] of valid entries; [options] are the
    constructor options it was configured with. *)
Record t : Type := mk {
  maxsize : Z;
  options : gmap string Py.pyval;
  data : list (option T);
  index : Z;
  size : Z
}.

(** Modelled from the spec: the constructor of the single buffer (base.py is
    not part of the sources).  A buffer has a fixed maximum capacity N and
    starts with no valid entry; a non-positive capacity is a
    ConfigurationError. *)
Definition init (N : Z) (kwargs : gmap string Py.pyval) : Py.result t :=
  if N <=? 0 then Py.Raise Py.ConfigurationError
  else Py.Return {| maxsize := N; options := kwargs;
                    data := replicate (Z.to_nat N) None;
                    index := 0; size := 0 |}.

(** Modelled from the spec: [add] (base.py is not part of the sources)
    writes the transition at the cursor, then advances [size] (up to the
    capacity) and the cursor circularly; it returns the slot written.  The
    episode statistics that [add] also reports are not stored in the buffer
    and are left out. *)
Definition add (b : t) (x : T) : t * Z :=
  ({| maxsize := maxsize b; options := options b;
      data := <[Z.to_nat (index b) := Some x]> (data b);
      index := (index b + 1) mod maxsize b;
      size := Z.min (size b + 1) (maxsize b) |},
   index b).

(** A sequence of [add] calls, oldest first. *)
Definition add_all (b : t) (xs : list T) : t :=
  fold_left (fun b x => fst (add b x)) xs b.

(** Modelled from the spec: [reset] clears [size] and the cursor. *)
Definition reset (b : t) : t :=
  {| maxsize := maxsize b; options := options b; data := data b;
     index := 0; size := 0 |}.

End Engine.

Arguments t T : clear implicits.

End ReplayBuffer.

(** ** The priority index (sum tree) *)

Module SumTree.

Local Open Scope nat_scope.

(** The arithmetic of the priorities.  The index holds floats ([total()]
    returns a float): the program runs its operations on binary64.  The same
    operations read over the rationals give the index in exact arithmetic. *)
Class Num (F : Type) : Type := {
  nzero : F;
  nadd : F -> F -> F;
  nsub : F -> F -> F;
  nmul : F -> F -> F;
  ndiv : F -> F -> F;
  nltb : F -> F -> bool;
  nof_nat : nat -> F
}.

#[global] Instance float64 : Num spec_float := {
  nzero := S754_zero false;
  nadd := SFadd Py.prec Py.emax;
  nsub := SFsub Py.prec Py.emax;
  nmul := SFmul Py.prec Py.emax;
  ndiv := SFdiv Py.prec Py.emax;
  nltb := SFltb;
  nof_nat n := binary_normalize Py.prec Py.emax (Z.of_nat n) 0 false
}.


(** A complete binary tree stored in an array: node 1 is the root, the
    children of node [i] are [2 i] and [2 i + 1], and leaf [j] is node
    [capacity + j] (0-indexed leaves, leaf offset = capacity).  The capacity
    is a power of two. *)
Record t (F : Type) : Type := mk {
  depth : nat;
  nodes : list F
}.
Arguments mk {F}.
Arguments depth {F}.
Arguments nodes {F}.

Section Index.

Context {F : Type} `{Num F}.

Definition capacity (tr : t F) : nat := 2 ^ depth tr.




(** Modelled from the spec: the priority index (prio.py and its tree are not
    part of the sources) is an array of length twice the capacity, the
    capacity being the next power of two above the number of slots; every
    slot starts unwritten, with value zero. *)
Definition init (N : Z) : t F :=
  let d := Z.to_nat (Z.log2_up N) in
  {| depth := d; nodes := replicate (2 * 2 ^ d) nzero |}.






(** The exponentiation [p ^ alpha] of the numeric library, [alpha] being
    fixed when the buffer is built. *)
Variable pow_alpha : F -> F.







End Index.

End SumTree.

(** ** rltoolkit/data/buffer/vecbuf.py *)

Module VecBuf.

Import Py.

(** The keyword arguments [**kwargs] of a constructor call. *)
Abbreviation Kwargs := (gmap string pyval).

(** A transition: an open mapping of field names to values. *)
Abbreviation Transition := (gmap string pyval).

(** Modelled from the spec: the prioritized buffer (prio.py is not part of
    the sources) is a single buffer with the priority exponent [alpha], the
    importance-sampling exponent [beta] and a sum tree over its slots. *)
Record PrioritizedReplayBuffer : Type := mkPrio {
  prio_base : ReplayBuffer.t Transition;
  alpha : pyval;
  beta : pyval;
  weight : SumTree.t spec_float
}.

(** Modelled from the spec: the hindsight buffer (her.py is not part of the
    sources) stores its transitions in a single buffer; relabelling happens
    when sampling. *)
Record HERReplayBuffer : Type := mkHER {
  her_base : ReplayBuffer.t Transition
}.

(** The objects the managers refer to.  The heap lists them in allocation
    order; a reference is a position in it. *)
Inductive object : Type :=
| Replay (b : ReplayBuffer.t Transition)
| Prioritized (b : PrioritizedReplayBuffer)
| HER (b : HERReplayBuffer).

Abbreviation heap := (list object).

Definition alloc (o : object) : M heap nat :=
  fun h => (Return (length h), h ++ [o]).

(** The single buffer inside an object, and its capacity. *)
Definition base_of (o : object) : ReplayBuffer.t Transition :=
  match o with
  | Replay b => b
  | Prioritized b => prio_base b
  | HER b => her_base b
  end.

Definition capacity (o : object) : Z := ReplayBuffer.maxsize (base_of o).

(** [ReplayBuffer(size, **kwargs)]. *)
Definition ReplayBuffer_new (size : Z) (kwargs : Kwargs) : M heap nat :=
  let* b := lift (ReplayBuffer.init size kwargs) in
  alloc (Replay b).

(** Modelled from the spec: the constructor of the prioritized buffer.  The
    exponents come with the configuration (the call in atari_rainbow.py
    passes [alpha] and [beta] by keyword); a call without them lacks a
    required argument. *)
Definition PrioritizedReplayBuffer_init (size : Z) (kwargs : Kwargs)
  : result PrioritizedReplayBuffer :=
  match kwargs !! "alpha"%string, kwargs !! "beta"%string with
  | Some a, Some b =>
      match ReplayBuffer.init size kwargs with
      | Return base =>
          Return {| prio_base := base; alpha := a; beta := b;
                    weight := SumTree.init size |}
      | Raise e => Raise e
      end
  | _, _ => Raise TypeError
  end.

(** [PrioritizedReplayBuffer(size, **kwargs)]. *)
Definition PrioritizedReplayBuffer_new (size : Z) (kwargs : Kwargs) : M heap nat :=
  let* b := lift (PrioritizedReplayBuffer_init size kwargs) in
  alloc (Prioritized b).

(** [HERReplayBuffer(size, **kwargs)]. *)
Definition HERReplayBuffer_new (size : Z) (kwargs : Kwargs) : M heap nat :=
  let* b := lift (ReplayBuffer.init size kwargs) in
  alloc (HER {| her_base := b |}).

(** Modelled from the spec: [PrioritizedReplayBuffer.set_beta] (prio.py is
    not part of the sources) assigns the exponent, which is mutable after
    construction.  The other buffer classes have no such method. *)
Definition object_set_beta (b : pyval) (o : object) : result object :=
  match o with
  | Prioritized p =>
      Return (Prioritized {| prio_base := prio_base p; alpha := alpha p;
                             beta := b; weight := weight p |})
  | _ => Raise (AttributeError "set_beta")
  end.

(** A method call on the object behind a reference, the object being
    updated in place. *)
Definition call_update (l : nat) (f : object -> result object) : M heap unit :=
  fun h => match h !! l with
           | None => (Raise SystemError, h)
           | Some o => match f o with
                       | Return o' => (Return tt, <[l := o']> h)
                       | Raise e => (Raise e, h)
                       end
           end.

(** A buffer manager: the references to its sub-buffers in order, the
    prefix-offset table and the size of the global index space. *)
Record Manager : Type := mkManager {
  buffers : list nat;
  offset : list Z;
  maxsize : Z
}.

(** The offset of each buffer: the sum of the capacities before it. *)
Fixpoint offsets_from (acc : Z) (sizes : list Z) : list Z :=
  match sizes with
  | [] => []
  | s :: r => acc :: offsets_from (acc + s) r
  end.

Definition sum_sizes (sizes : list Z) : Z := fold_right Z.add 0 sizes.

(** The capacities of the buffers behind a list of references. *)
Fixpoint capacities (h : heap) (bs : list nat) : result (list Z) :=
  match bs with
  | [] => Return []
  | l :: r =>
      match h !! l, capacities h r with
      | Some o, Return cs => Return (capacity o :: cs)
      | None, _ => Raise SystemError
      | _, Raise e => Raise e
      end
  end.

(** Modelled from the spec: the constructor of the managers (manager.py is
    not part of the sources) keeps the buffers in order and presents a global
    index space whose size is the sum of their capacities, with the
    prefix-offset table computed once, at construction. *)
Definition ReplayBufferManager_init (buffer_list : list nat) : M heap Manager :=
  let* h := get in
  let* sizes := lift (capacities h buffer_list) in
  ret {| buffers := buffer_list;
         offset := offsets_from 0 sizes;
         maxsize := sum_sizes sizes |}.

(** [VectorReplayBuffer.__init__]. *)
Definition VectorReplayBuffer_init (total_size buffer_num : Z) (kwargs : Kwargs)
  : M heap Manager :=
  let* _ := assert (0 <? buffer_num) in
  let* q := lift (int_truediv total_size buffer_num) in
  let* size := lift (int_ceil q) in
  let* buffer_list := replicateM (Z.to_nat buffer_num) (ReplayBuffer_new size kwargs) in
  ReplayBufferManager_init buffer_list.

(** [PrioritizedVectorReplayBuffer.__init__]. *)
Definition PrioritizedVectorReplayBuffer_init (total_size buffer_num : Z)
  (kwargs : Kwargs) : M heap Manager :=
  let* _ := assert (0 <? buffer_num) in
  let* q := lift (int_truediv total_size buffer_num) in
  let* size := lift (int_ceil q) in
  let* buffer_list :=
    replicateM (Z.to_nat buffer_num) (PrioritizedReplayBuffer_new size kwargs) in
  ReplayBufferManager_init buffer_list.

(** [PrioritizedVectorReplayBuffer.set_beta]. *)
Definition set_beta (self : Manager) (b : pyval) : M heap unit :=
  for_each (buffers self) (fun buffer => call_update buffer (object_set_beta b)).

(** [HERVectorReplayBuffer.__init__]. *)
Definition HERVectorReplayBuffer_init (total_size buffer_num : Z) (kwargs : Kwargs)
  : M heap Manager :=
  let* _ := assert (0 <? buffer_num) in
  let* q := lift (int_truediv total_size buffer_num) in
  let* size := lift (int_ceil q) in
  let* buffer_list := replicateM (Z.to_nat buffer_num) (HERReplayBuffer_new size kwargs) in
  ReplayBufferManager_init buffer_list.

(** The kind of error the specification calls ConfigurationError: the
    rejection of a non-positive capacity or buffer count.  The constructors
    of vecbuf.py reject a non-positive buffer count with [assert]. *)
Definition is_configuration_error (e : exn) : bool :=
  match e with
  | AssertionError | ConfigurationError => true
  | _ => false
  end.

End VecBuf.

(** ** examples/atari/atari_rainbow.py *)

Module AtariRainbow.

Import Py.

(** The float operations [train_fn] uses.  The program runs them on
    binary64; the same code read over the rationals gives the schedule in
    exact arithmetic. *)
Class FloatOps (F : Type) : Type := {
  fsub : F -> F -> F;
  fmul : F -> F -> F;
  fdiv : F -> F -> F;
  int_div : Z -> Z -> result F;
  of_int : Z -> result F;
  lit_1e6 : F
}.

#[export] Instance binary64 : FloatOps spec_float := {
  fsub := SFsub prec emax;
  fmul := SFmul prec emax;
  fdiv := SFdiv prec emax;
  int_div := int_truediv;
  of_int := float_of_int;
  lit_1e6 := S754_finite false 8589934592000000 (-33)
}.

#[export] Instance exact : FloatOps Q := {
  fsub := Qminus;
  fmul := Qmult;
  fdiv := Qdiv;
  int_div a b :=
    if b =? 0 then Raise ZeroDivisionError
    else Return (inject_Z a / inject_Z b)%Q;
  of_int z := Return (inject_Z z);
  lit_1e6 := inject_Z 1000000
}.

(** The command-line arguments the training callbacks read. *)
Record Args (F : Type) : Type := mkArgs {
  env_id : string;
  eps_test : F;
  eps_train : F;
  eps_train_final : F;
  no_priority : bool;
  beta : F;
  beta_final : F;
  beta_anneal_step : Z
}.
Arguments mkArgs {F}.
Arguments env_id {F}.
Arguments eps_test {F}.
Arguments eps_train {F}.
Arguments eps_train_final {F}.
Arguments no_priority {F}.
Arguments beta {F}.
Arguments beta_final {F}.
Arguments beta_anneal_step {F}.

(** The defaults of [get_args], as binary64 values: eps-test 0.005,
    eps-train 1.0, eps-train-final 0.05, beta 0.4, beta-final 1.0,
    beta-anneal-step 5000000. *)
Definition default_args : Args spec_float :=
  {| env_id := "PongNoFrameskip-v4";
     eps_test := S754_finite false 5764607523034235 (-60);
     eps_train := S754_finite false 4503599627370496 (-52);
     eps_train_final := S754_finite false 7205759403792794 (-57);
     no_priority := false;
     beta := S754_finite false 7205759403792794 (-54);
     beta_final := S754_finite false 4503599627370496 (-52);
     beta_anneal_step := 5000000 |}.

(** The calls the callbacks make on their collaborators (policy, logger and
    replay buffer), in order. *)
Inductive event (F : Type) : Type :=
| policy_set_eps (eps : F)
| logger_write (step_type : string) (step : Z) (key : string) (value : F)
| buffer_set_beta (b : F).
Arguments policy_set_eps {F}.
Arguments logger_write {F}.
Arguments buffer_set_beta {F}.

Definition call {F} (e : event F) : M (list (event F)) unit :=
  fun tr => (Return tt, tr ++ [e]).

(** [train_fn(epoch, env_step)].  The comparison [env_step <= 1e6] of an
    int with a float is exact, and 1e6 is the integer 1000000. *)
Definition train_fn {F} `{FloatOps F} (args : Args F) (epoch env_step : Z)
  : M (list (event F)) unit :=
  let* eps :=
    (if env_step <=? 1000000 then
       let* x := lift (of_int env_step) in
       ret (fsub (eps_train args)
              (fmul (fdiv x lit_1e6)
                 (fsub (eps_train args) (eps_train_final args))))
     else ret (eps_train_final args)) in
  let* _ := call (policy_set_eps eps) in
  let* _ :=
    (if env_step mod 1000 =? 0
     then call (logger_write "train/env_step" env_step "train/eps" eps)
     else ret tt) in
  if negb (no_priority args) then
    let* b :=
      (if env_step <=? beta_anneal_step args then
         let* q := lift (int_div env_step (beta_anneal_step args)) in
         ret (fsub (beta args) (fmul q (fsub (beta args) (beta_final args))))
       else ret (beta_final args)) in
    let* _ := call (buffer_set_beta b) in
    if env_step mod 1000 =? 0
    then call (logger_write "train/env_step" env_step "train/beta" b)
    else ret tt
  else ret tt.

(** [test_fn(epoch, env_step)]. *)
Definition test_fn {F} (args : Args F) (epoch env_step : Z)
  : M (list (event F)) unit :=
  call (policy_set_eps (eps_test args)).

(** [bool(x)] for an optional float: [None] and zero are false. *)
Definition threshold_set (t : option spec_float) : bool :=
  match t with
  | None => false
  | Some x => truthy (PyFloat x)
  end.

(** [stop_fn(mean_rewards)], given [env.spec.reward_threshold]; the
    second test is ['Pong' in args.env_id] and 20 is the binary64 20.0. *)
Definition stop_fn (args : Args spec_float) (reward_threshold : option spec_float)
  (mean_rewards : spec_float) : bool :=
  if threshold_set reward_threshold then
    match reward_threshold with
    | Some t => SFleb t mean_rewards
    | None => false
    end
  else
    match String.index 0 "Pong" (env_id args) with
    | Some _ => SFleb (S754_finite false 5629499534213120 (-48)) mean_rewards
    | None => false
    end.






(** The value a run passed to [policy.set_eps] last, if any. *)
Definition eps_passed {F} (tr : list (event F)) : option F :=
  last (omap (fun e => match e with policy_set_eps x => Some x | _ => None end) tr).

End AtariRainbow.

(** ** rltoolkit/cleanrl/rl_args.py and rltoolkit/cleanrl/agent/ppo_penalty.py *)

Module PPOPenalty.

Import Py.

(** [RLArguments], the settings common to all algorithms. *)
Record RLArguments : Type := mkRLArguments {
  project : string;
  algo_name : string;
  use_cuda : bool;
  torch_deterministic : bool;
  seed : Z;
  env_id : string;
  num_envs : Z;
  capture_video : option bool;
  buffer_size : Z;
  batch_size : Z;
  gamma : spec_float;
  eval_episodes : Z;
  work_dir : string;
  save_model : option bool;
  train_log_interval : Z;
  test_log_interval : Z;
  save_interval : Z;
  logger : string
}.

(** [PPOArguments(RLArguments)]: the inherited fields and its own. *)
Record PPOArguments : Type := mkPPOArguments {
  common : RLArguments;
  hidden_dim : Z;
  learning_rate : spec_float;
  actor_lr : spec_float;
  critic_lr : spec_float;
  epsilon : spec_float;
  gae_lambda : spec_float;
  value_loss_coef : spec_float;
  entropy_coef : spec_float;
  clip_vloss : bool;
  clip_param : spec_float;
  max_grad_norm : option spec_float;
  target_kl : option spec_float;
  num_episode : Z;
  rollout_length : Z
}.

Definition opt_bool (o : option bool) : pyval :=
  match o with Some b => PyBool b | None => PyNone end.

Definition opt_float (o : option spec_float) : pyval :=
  match o with Some f => PyFloat f | None => PyNone end.

(** The attributes of an [RLArguments] instance, in declaration order. *)
Definition RLArguments_dict (a : RLArguments) : list (string * pyval) :=
  [ ("project", PyStr (project a));
    ("algo_name", PyStr (algo_name a));
    ("use_cuda", PyBool (use_cuda a));
    ("torch_deterministic", PyBool (torch_deterministic a));
    ("seed", PyInt (seed a));
    ("env_id", PyStr (env_id a));
    ("num_envs", PyInt (num_envs a));
    ("capture_video", opt_bool (capture_video a));
    ("buffer_size", PyInt (buffer_size a));
    ("batch_size", PyInt (batch_size a));
    ("gamma", PyFloat (gamma a));
    ("eval_episodes", PyInt (eval_episodes a));
    ("work_dir", PyStr (work_dir a));
    ("save_model", opt_bool (save_model a));
    ("train_log_interval", PyInt (train_log_interval a));
    ("test_log_interval", PyInt (test_log_interval a));
    ("save_interval", PyInt (save_interval a));
    ("logger", PyStr (logger a)) ]%string.

(** The attributes of a [PPOArguments] instance: those of the base class,
    then its own. *)
Definition PPOArguments_dict (a : PPOArguments) : list (string * pyval) :=
  RLArguments_dict (common a) ++
  [ ("hidden_dim", PyInt (hidden_dim a));
    ("learning_rate", PyFloat (learning_rate a));
    ("actor_lr", PyFloat (actor_lr a));
    ("critic_lr", PyFloat (critic_lr a));
    ("epsilon", PyFloat (epsilon a));
    ("gae_lambda", PyFloat (gae_lambda a));
    ("value_loss_coef", PyFloat (value_loss_coef a));
    ("entropy_coef", PyFloat (entropy_coef a));
    ("clip_vloss", PyBool (clip_vloss a));
    ("clip_param", PyFloat (clip_param a));
    ("max_grad_norm", opt_float (max_grad_norm a));
    ("target_kl", opt_float (target_kl a));
    ("num_episode", PyInt (num_episode a));
    ("rollout_length", PyInt (rollout_length a)) ]%string.

(** Looking a name up in an attribute list. *)
Fixpoint assoc (name : string) (d : list (string * pyval)) : option pyval :=
  match d with
  | [] => None
  | (k, v) :: r => if String.eqb k name then Some v else assoc name r
  end.

(** [args.name]: the attribute, or [AttributeError] when the instance has
    none of that name (the special attributes every Python object has are
    not modelled). *)
Definition getattr (a : PPOArguments) (name : string) : result pyval :=
  match assoc name (PPOArguments_dict a) with
  | Some v => Return v
  | None => Raise (AttributeError name)
  end.

(** The defaults of the two dataclasses. *)
Definition RLArguments_default : RLArguments :=
  {| project := "rltoolkit"; algo_name := "dqn"; use_cuda := true;
     torch_deterministic := false; seed := 42; env_id := "CartPole-v0";
     num_envs := 10; capture_video := None; buffer_size := 10000;
     batch_size := 32; gamma := S754_finite false 8917127262193582 (-53);
     eval_episodes := 10; work_dir := "work_dirs"; save_model := Some false;
     train_log_interval := 5; test_log_interval := 10; save_interval := 1000;
     logger := "wandb" |}.

Definition PPOArguments_default : PPOArguments :=
  {| common := RLArguments_default;
     hidden_dim := 128;
     learning_rate := S754_finite false 7378697629483821 (-66);
     actor_lr := S754_finite false 7378697629483821 (-66);
     critic_lr := S754_finite false 7378697629483821 (-66);
     epsilon := S754_finite false 5902958103587057 (-69);
     gae_lambda := S754_finite false 8556839292003942 (-53);
     value_loss_coef := S754_finite false 4503599627370496 (-53);
     entropy_coef := S754_finite false 5764607523034235 (-59);
     clip_vloss := true;
     clip_param := S754_finite false 7205759403792794 (-55);
     max_grad_norm := Some (S754_finite false 4503599627370496 (-52));
     target_kl := None;
     num_episode := 1000;
     rollout_length := 128 |}.

(** The tensor library, the network and the optimizer, which the agent
    calls and this development does not look into.  Every call may raise. *)
Class Torch : Type := {
  tensor : Type;
  params : Type;
  optim : Type;
  distribution : Type;
  actor_critic_get_value : params -> tensor -> result tensor;
  actor_critic_get_action : params -> tensor -> result tensor;
  Categorical : tensor -> result distribution;
  log_prob : distribution -> tensor -> result tensor;
  entropy : distribution -> result tensor;
  t_mean : tensor -> result tensor;
  t_std : tensor -> result tensor;
  t_sub : tensor -> tensor -> result tensor;
  t_add : tensor -> tensor -> result tensor;
  t_mul : tensor -> tensor -> result tensor;
  t_div : tensor -> tensor -> result tensor;
  t_neg : tensor -> result tensor;
  t_exp : tensor -> result tensor;
  t_pow2 : tensor -> result tensor;
  t_min : tensor -> tensor -> result tensor;
  t_max : tensor -> tensor -> result tensor;
  t_clamp : tensor -> tensor -> tensor -> result tensor;
  t_gt : tensor -> tensor -> result tensor;
  t_lt : tensor -> tensor -> result tensor;
  t_or : tensor -> tensor -> result tensor;
  as_float32 : tensor -> result tensor;
  scalar : pyval -> result tensor;
  lit : spec_float -> tensor;
  item : tensor -> result spec_float;
  zero_grad : params -> optim -> result (params * optim);
  backward : tensor -> params -> result params;
  clip_grad_norm : pyval -> params -> result params;
  optimizer_step : params -> optim -> result (params * optim)
}.

Section Agent.

Context `{Torch}.

(** The state of a [PPOPenaltyAgent]: its arguments, the parameters of the
    network (with their gradients), the optimizer and the update counter. *)
Record Agent : Type := mkAgent {
  args : PPOArguments;
  network : params;
  optimizer : optim;
  learner_update_step : Z
}.

(** [RolloutBufferSamples]. *)
Record RolloutBufferSamples : Type := mkBatch {
  obs : tensor;
  actions : tensor;
  old_values : tensor;
  old_log_prob : tensor;
  advantages : tensor;
  returns : tensor
}.

Definition set_network (p : params) (o : optim) : M Agent unit :=
  fun a => (Return tt, {| args := args a; network := p; optimizer := o;
                          learner_update_step := learner_update_step a |}).

Definition self_args (name : string) : M Agent pyval :=
  fun a => (getattr (args a) name, a).

(** [PPOPenaltyAgent.learn]. *)
Definition learn (batch : RolloutBufferSamples) : M Agent (list (string * spec_float)) :=
  let* self := get in
  (* Compute new values, log probs, and entropy *)
  let* new_values := lift (actor_critic_get_value (network self) (obs batch)) in
  let* logits := lift (actor_critic_get_action (network self) (obs batch)) in
  let* dist := lift (Categorical logits) in
  let* new_log_probs := lift (log_prob dist (actions batch)) in
  let* ent := lift (entropy dist) in
  (* Compute entropy loss *)
  let* entropy_loss := lift (t_mean ent) in
  (* Normalize advantages *)
  let* norm_advantages := self_args "norm_advantages" in
  let* adv :=
    (if truthy norm_advantages then
       let* m := lift (t_mean (advantages batch)) in
       let* d := lift (t_sub (advantages batch) m) in
       let* sd := lift (t_std (advantages batch)) in
       let* sd' := lift (t_add sd (lit (S754_finite false 6044629098073146 (-79)))) in
       lift (t_div d sd')
     else ret (advantages batch)) in
  (* Compute actor loss *)
  let* log_ratio := lift (t_sub new_log_probs (old_log_prob batch)) in
  let* ratio := lift (t_exp log_ratio) in
  let* surr1 := lift (t_mul ratio adv) in
  let* clip_param := self_args "clip_param" in
  let* clip := lift (scalar clip_param) in
  let* one := ret (lit (S754_finite false 4503599627370496 (-52))) in
  let* lo := lift (t_sub one clip) in
  let* hi := lift (t_add one clip) in
  let* clamped := lift (t_clamp ratio lo hi) in
  let* surr2 := lift (t_mul clamped adv) in
  let* smin := lift (t_min surr1 surr2) in
  let* smean := lift (t_mean smin) in
  let* actor_loss := lift (t_neg smean) in
  (* Compute value loss *)
  let* clip_vloss := self_args "clip_vloss" in
  let* half := ret (lit (S754_finite false 4503599627370496 (-53))) in
  let* value_loss :=
    (if truthy clip_vloss then
       let* dv := lift (t_sub new_values (old_values batch)) in
       let* nclip := lift (t_neg clip) in
       let* dvc := lift (t_clamp dv nclip clip) in
       let* value_pred_clipped := lift (t_add (old_values batch) dvc) in
       let* u := lift (t_sub new_values (returns batch)) in
       let* value_losses_unclipped := lift (t_pow2 u) in
       let* c := lift (t_sub value_pred_clipped (returns batch)) in
       let* value_losses_clipped := lift (t_pow2 c) in
       let* mx := lift (t_max value_losses_unclipped value_losses_clipped) in
       let* mm := lift (t_mean mx) in
       lift (t_mul half mm)
     else
       let* u := lift (t_sub new_values (returns batch)) in
       let* u2 := lift (t_pow2 u) in
       let* um := lift (t_mean u2) in
       lift (t_mul half um)) in
  (* Total loss *)
  let* value_loss_coef := self_args "value_loss_coef" in
  let* vc := lift (scalar value_loss_coef) in
  let* entropy_coef := self_args "entropy_coef" in
  let* ec := lift (scalar entropy_coef) in
  let* vl := lift (t_mul value_loss vc) in
  let* el := lift (t_mul entropy_loss ec) in
  let* av := lift (t_add actor_loss vl) in
  let* loss := lift (t_sub av el) in
  (* Backpropagation *)
  let* self := get in
  let* zg := lift (zero_grad (network self) (optimizer self)) in
  let* _ := set_network (fst zg) (snd zg) in
  let* g := lift (backward loss (fst zg)) in
  let* _ := set_network g (snd zg) in
  let* max_grad_norm := self_args "max_grad_norm" in
  let* g' :=
    (match max_grad_norm with
     | PyNone => ret g
     | v => let* c := lift (clip_grad_norm v g) in
            let* _ := set_network c (snd zg) in
            ret c
     end) in
  let* st := lift (optimizer_step g' (snd zg)) in
  let* _ := set_network (fst st) (snd st) in
  let* _ := (fun a => (Return tt, {| args := args a; network := network a;
                                     optimizer := optimizer a;
                                     learner_update_step := learner_update_step a + 1 |})) in
  (* Calculate KL divergence metrics *)
  let* gt := lift (t_gt ratio hi) in
  let* lt := lift (t_lt ratio lo) in
  let* clipped := lift (t_or gt lt) in
  let* nlr := lift (t_neg log_ratio) in
  let* approx_kl := lift (t_mean nlr) in
  let* cf := lift (as_float32 clipped) in
  let* clipped_frac := lift (t_mean cf) in
  let* v_loss := lift (item loss) in
  let* v_value_loss := lift (item value_loss) in
  let* v_actor_loss := lift (item actor_loss) in
  let* v_entropy_loss := lift (item entropy_loss) in
  let* v_approx_kl := lift (item approx_kl) in
  let* v_clipped_frac := lift (item clipped_frac) in
  ret [ ("loss", v_loss); ("value_loss", v_value_loss);
        ("actor_loss", v_actor_loss); ("entropy_loss", v_entropy_loss);
        ("approx_kl", v_approx_kl); ("clipped_frac", v_clipped_frac) ]%string.

End Agent.

(** The dataclasses of rl_args.py. *)
Inductive arguments_class : Type :=
| class_RLArguments
| class_DQNArguments
| class_C51Arguments
| class_DDPGArguments
| class_PGArguments
| class_A2CArguments
| class_PPOArguments
| class_SACArguments.

(** The fields a class declares itself, in declaration order. *)
Definition declared_fields (c : arguments_class) : list string :=
  match c with
  | class_RLArguments =>
      [ "project"; "algo_name"; "use_cuda"; "torch_deterministic"; "seed"; "env_id";
        "num_envs"; "capture_video"; "buffer_size"; "batch_size"; "gamma";
        "eval_episodes"; "work_dir"; "save_model"; "train_log_interval";
        "test_log_interval"; "save_interval"; "logger" ]
  | class_DQNArguments =>
      [ "hidden_dim"; "double_dqn"; "dueling_dqn"; "n_steps"; "max_timesteps";
        "learning_rate"; "min_learning_rate"; "lr_scheduler_method";
        "eps_greedy_start"; "eps_greedy_end"; "eps_greedy_scheduler"; "norm_reward";
        "clip_reward"; "max_grad_norm"; "use_smooth_l1_loss"; "warmup_learn_steps";
        "target_update_frequency"; "train_frequency"; "gradient_steps";
        "soft_update_tau" ]
  | class_C51Arguments =>
      [ "hidden_dim"; "n_steps"; "num_atoms"; "v_min"; "v_max";
        "target_update_frequency"; "train_frequency"; "gradient_steps" ]
  | class_DDPGArguments =>
      [ "target_update_frequency"; "train_frequency"; "gradient_steps";
        "policy_frequency"; "hidden_dim"; "actor_lr"; "critic_lr";
        "exploration_noise"; "ou_noise_sigma"; "ou_noise_theta" ]
  | class_PGArguments => [ "hidden_dim"; "with_baseline" ]
  | class_A2CArguments => [ "hidden_dim"; "entropy_weight"; "actor_lr"; "critic_lr" ]
  | class_PPOArguments =>
      [ "hidden_dim"; "learning_rate"; "actor_lr"; "critic_lr"; "epsilon";
        "gae_lambda"; "value_loss_coef"; "entropy_coef"; "clip_vloss"; "clip_param";
        "max_grad_norm"; "target_kl"; "num_episode"; "rollout_length" ]
  | class_SACArguments => [ "hidden_dim"; "actor_lr"; "critic_lr"; "alpha_lr"; "alpha" ]
  end%string.

(** The fields of an instance: a dataclass that derives from [RLArguments]
    has the fields of the base class, then its own. *)
Definition fields (c : arguments_class) : list string :=
  match c with
  | class_RLArguments => declared_fields class_RLArguments
  | _ => declared_fields class_RLArguments ++ declared_fields c
  end.

End PPOPenalty.

(** ** rltoolkit/envs/utils.py *)

Module EnvUtils.

Import Py.

Section Cloudpickle.

(** The values that can be wrapped and the strings [cloudpickle] produces;
    [dumps] raises on a value that cannot be pickled, [loads] on a string
    that is no pickle. *)
Variables (value pickled : Type).
Variable dumps : value -> result pickled.
Variable loads : pickled -> result value.

(** A [CloudpickleWrapper] object: its [data] attribute, absent on an
    object that [__init__] has not run on (unpickling creates the object
    first and calls [__setstate__] on it). *)
Record CloudpickleWrapper : Type := mkWrapper {
  data : option value
}.

(** The object before [__init__] or [__setstate__] ran. *)
Definition new : CloudpickleWrapper := {| data := None |}.

(** [CloudpickleWrapper.__init__]. *)
Definition init (d : value) : M CloudpickleWrapper unit :=
  put {| data := Some d |}.

(** [self.data]. *)
Definition self_data : M CloudpickleWrapper value :=
  fun self => match data self with
              | Some v => (Return v, self)
              | None => (Raise (AttributeError "data"), self)
              end.

(** [CloudpickleWrapper.__getstate__]. *)
Definition getstate : M CloudpickleWrapper pickled :=
  let* d := self_data in
  lift (dumps d).

(** [CloudpickleWrapper.__setstate__]. *)
Definition setstate (s : pickled) : M CloudpickleWrapper unit :=
  let* v := lift (loads s) in
  put {| data := Some v |}.

(** Pickling a wrapper and unpickling the result into a new object, as the
    pickle protocol does when the wrapper is sent to a subprocess. *)
Definition roundtrip (w : CloudpickleWrapper) : result CloudpickleWrapper :=
  match getstate w with
  | (Return s, _) =>
      match setstate s new with
      | (Return _, w') => Return w'
      | (Raise e, _) => Raise e
      end
  | (Raise e, _) => Raise e
  end.

End Cloudpickle.

End EnvUtils.

(** * Properties *)

Import Py.

(** ** binary64 division of integers *)

Lemma digits2_pos_bounds p :
  2 ^ (Zpos (digits2_pos p) - 1) <= Zpos p < 2 ^ Zpos (digits2_pos p).
Proof.
  induction p as [p IH|p IH|]; cbn [digits2_pos].
  - rewrite Pos2Z.inj_succ, (Pos2Z.inj_xI p).
    replace (Z.succ (Z.pos (digits2_pos p)) - 1) with (Z.succ (Z.pos (digits2_pos p) - 1)) by lia.
    rewrite !Z.pow_succ_r by lia. lia.
  - rewrite Pos2Z.inj_succ, (Pos2Z.inj_xO p).
    replace (Z.succ (Z.pos (digits2_pos p)) - 1) with (Z.succ (Z.pos (digits2_pos p) - 1)) by lia.
    rewrite !Z.pow_succ_r by lia. lia.
  - cbn. lia.
Qed.




Lemma digits_53_54 p :
  2 ^ 52 <= Zpos p < 2 ^ 54 ->
  Zpos (digits2_pos p) = 53 \/ Zpos (digits2_pos p) = 54.
Proof.
  intros H. pose proof (digits2_pos_bounds p) as Hd.
  destruct (Z_lt_le_dec (Zpos (digits2_pos p)) 53) as [Hlt|Hge].
  - assert (2 ^ Zpos (digits2_pos p) <= 2 ^ 52) by (apply Z.pow_le_mono_r; lia). lia.
  - destruct (Z_lt_le_dec 54 (Zpos (digits2_pos p))) as [Hgt|Hle]; [|lia].
    assert (2 ^ 54 <= 2 ^ (Zpos (digits2_pos p) - 1)) by (apply Z.pow_le_mono_r; lia). lia.
Qed.

Lemma fexp_normal x : -1021 <= x -> fexp prec emax x = x - 53.
Proof. unfold fexp, emin, prec, emax. lia. Qed.








(** ** binary64 division of integers: large divisors *)









Import VecBuf.

(** ** vecbuf.py: the constructors *)

(** The code the three constructors share, for a sub-buffer constructor
    [new]. *)
Definition vector_init (new : Z -> Kwargs -> M heap nat)
  (total_size buffer_num : Z) (kwargs : Kwargs) : M heap Manager :=
  let* _ := assert (0 <? buffer_num) in
  let* q := lift (int_truediv total_size buffer_num) in
  let* size := lift (int_ceil q) in
  let* buffer_list := replicateM (Z.to_nat buffer_num) (new size kwargs) in
  ReplayBufferManager_init buffer_list.





Lemma vector_init_nonpositive new T k kwargs h :
  k <= 0 -> vector_init new T k kwargs h = (Raise AssertionError, h).
Proof.
  intros Hk. unfold vector_init.
  assert ((0 <? k) = false) as Hneg by (apply Z.ltb_ge; lia).
  unfold bind at 1. rewrite Hneg. reflexivity.
Qed.






(** The manager over [k] buffers of capacity [c] allocated at the end of
    a heap of [n] objects. *)
Definition manager_of (n : nat) (k c : Z) : Manager :=
  {| buffers := seq n (Z.to_nat k);
     offset := offsets_from 0 (replicate (Z.to_nat k) c);
     maxsize := k * c |}.

(** The empty buffer of capacity [c] configured with [kwargs]. *)
Definition empty_buffer (c : Z) (kwargs : Kwargs) : ReplayBuffer.t Transition :=
  ReplayBuffer.mk c kwargs (replicate (Z.to_nat c) None) 0 0.












(** C7.  With a buffer count that is not positive, each of the three
    constructors raises at once, by its assertion, an error of the
    ConfigurationError kind, and allocates no sub-buffer: the heap is as it
    was. *)
Theorem vector_nonpositive_buffer_num (T k : Z) (kwargs : Kwargs) (h : heap) :
  k <= 0 ->
  is_configuration_error AssertionError = true /\
  VectorReplayBuffer_init T k kwargs h = (Raise AssertionError, h) /\
  PrioritizedVectorReplayBuffer_init T k kwargs h = (Raise AssertionError, h) /\
  HERVectorReplayBuffer_init T k kwargs h = (Raise AssertionError, h).
Proof.
  intros Hk. split; [reflexivity|].
  split; [|split].
  - exact (vector_init_nonpositive ReplayBuffer_new T k kwargs h Hk).
  - exact (vector_init_nonpositive PrioritizedReplayBuffer_new T k kwargs h Hk).
  - exact (vector_init_nonpositive HERReplayBuffer_new T k kwargs h Hk).
Qed.

Lemma vector_nonpositive_buffer_num_zero :
  VectorReplayBuffer_init 10 0 ∅ [] = (Raise AssertionError, []).
Proof.
  exact (proj1 (proj2 (vector_nonpositive_buffer_num 10 0 ∅ [] ltac:(lia)))).
Defined.

(** ** vecbuf.py: [set_beta] *)

(** The effect of [set_beta] on one object. *)
Definition with_beta (b : pyval) (o : object) : object :=
  match o with
  | Prioritized p => Prioritized (mkPrio (prio_base p) (alpha p) b (weight p))
  | _ => o
  end.

Definition is_prioritized (o : object) : Prop :=
  match o with Prioritized _ => True | _ => False end.

Lemma for_each_set_beta b (bs : list nat) (h : heap) :
  (forall l, l ∈ bs -> exists o, h !! l = Some o /\ is_prioritized o) ->
  exists h',
    for_each bs (fun buffer => call_update buffer (object_set_beta b)) h = (Return tt, h') /\
    length h' = length h /\
    forall l, h' !! l = (if bool_decide (l ∈ bs) then with_beta b else id) <$> h !! l.
Proof.
  revert h. induction bs as [|l0 bs IH]; intros h Hwf.
  - exists h. split; [reflexivity|]. split; [reflexivity|].
    intros l. rewrite bool_decide_eq_false_2 by apply not_elem_of_nil.
    destruct (h !! l); reflexivity.
  - destruct (Hwf l0 ltac:(left)) as (o0 & Hl0 & Hp0).
    destruct o0 as [?|p0|?]; try contradiction.
    cbn [for_each]. unfold bind at 1, call_update at 1. rewrite Hl0. cbn [object_set_beta].
    set (o1 := Prioritized _).
    destruct (IH (<[l0 := o1]> h)) as (h' & Hrun & Hlen & Hlook).
    { intros l Hl. destruct (decide (l = l0)) as [->|Hne].
      - exists o1. split; [|exact I].
        apply list_lookup_insert_eq. eapply lookup_lt_Some; eassumption.
      - rewrite list_lookup_insert_ne by congruence. apply Hwf. right. assumption. }
    exists h'. split; [exact Hrun|]. split; [rewrite Hlen; apply length_insert|].
    intros l. rewrite Hlook.
    destruct (decide (l = l0)) as [->|Hne].
    + rewrite list_lookup_insert_eq by (eapply lookup_lt_Some; eassumption).
      rewrite Hl0. rewrite (bool_decide_eq_true_2 (l0 ∈ l0 :: bs)) by left.
      cbn. destruct (bool_decide (l0 ∈ bs)); reflexivity.
    + rewrite list_lookup_insert_ne by congruence.
      destruct (decide (l ∈ bs)) as [Hin|Hnin].
      * rewrite !bool_decide_eq_true_2; [reflexivity|right; assumption|assumption].
      * rewrite !bool_decide_eq_false_2; [reflexivity| |assumption].
        intros [?|?]%elem_of_cons; contradiction.
Qed.

(** C8.  On a manager whose sub-buffers are prioritized buffers,
    [set_beta b] returns normally; afterwards every sub-buffer is the buffer
    it was with [beta] replaced by [b] (its transitions, size, cursor,
    priorities and alpha are as before), every other object of the heap is
    untouched, and no object is created or dropped. *)
Theorem set_beta_frame (self : Manager) (b : pyval) (h : heap) :
  (forall l, l ∈ buffers self -> exists o, h !! l = Some o /\ is_prioritized o) ->
  exists h',
    set_beta self b h = (Return tt, h') /\
    length h' = length h /\
    (forall l p, l ∈ buffers self -> h !! l = Some (Prioritized p) ->
       h' !! l = Some (Prioritized {| prio_base := prio_base p; alpha := alpha p;
                                      beta := b; weight := weight p |})) /\
    (forall l, l ∉ buffers self -> h' !! l = h !! l).
Proof.
  intros Hwf. destruct (for_each_set_beta b (buffers self) h Hwf) as (h' & Hrun & Hlen & Hlook).
  exists h'. split; [exact Hrun|]. split; [exact Hlen|]. split.
  - intros l p Hin Hl. rewrite Hlook, bool_decide_eq_true_2, Hl by assumption. reflexivity.
  - intros l Hnin. rewrite Hlook, bool_decide_eq_false_2 by assumption.
    destruct (h !! l); reflexivity.
Qed.

Lemma set_beta_frame_two_buffers :
  exists h',
    set_beta (manager_of 0 2 2) (PyFloat (S754_finite false 4503599627370496 (-52)))
      (replicate 2 (Prioritized (mkPrio (empty_buffer 2 ∅) PyNone PyNone (SumTree.init 2))))
    = (Return tt, h') /\ length h' = 2%nat.
Proof.
  destruct (set_beta_frame (manager_of 0 2 2)
              (PyFloat (S754_finite false 4503599627370496 (-52)))
              (replicate 2 (Prioritized (mkPrio (empty_buffer 2 ∅) PyNone PyNone (SumTree.init 2)))))
    as (h' & Hrun & Hlen & _).
  - intros l Hl. cbn in Hl.
    apply elem_of_cons in Hl as [->|Hl]; [eexists; split; [reflexivity|exact I]|].
    apply elem_of_cons in Hl as [->|Hl]; [eexists; split; [reflexivity|exact I]|].
    apply elem_of_nil in Hl. contradiction.
  - exists h'. split; assumption.
Defined.

(** ** binary64: conversion of integers *)

Lemma iter_xO_pow p k : Zpos (Pos.iter xO p k) = Zpos p * 2 ^ Zpos k.
Proof.
  induction k as [|k IH] using Pos.peano_ind.
  - cbn [Pos.iter]. rewrite (Pos2Z.inj_xO p). change (2 ^ 1) with 2. lia.
  - rewrite Pos.iter_succ, (Pos2Z.inj_xO (Pos.iter xO p k)), IH, Pos2Z.inj_succ.
    rewrite Z.pow_succ_r by lia. lia.
Qed.

Lemma shr_fexp_exact_53 p e :
  2 ^ 52 <= Zpos p < 2 ^ 53 -> -1021 - 53 <= e ->
  shr_fexp prec emax (Zpos p) e loc_Exact = (Build_shr_record (Zpos p) false false, e).
Proof.
  intros Hp He. unfold shr_fexp. cbn [Zdigits2].
  pose proof (digits2_pos_bounds p) as Hd.
  assert (E : Zpos (digits2_pos p) = 53).
  { destruct (digits_53_54 p ltac:(change (2 ^ 54) with (2 * 2 ^ 53); lia)) as [E|E]; [exact E|].
    rewrite E in Hd. change (54 - 1) with 53 in Hd. lia. }
  rewrite E, fexp_normal by lia.
  replace (53 + e - 53 - e) with 0 by lia. reflexivity.
Qed.

Lemma binary_round_aux_exact_53 s p e :
  2 ^ 52 <= Zpos p < 2 ^ 53 -> -1021 - 53 <= e <= 971 ->
  binary_round_aux prec emax s (Zpos p) e loc_Exact = S754_finite s p e.
Proof.
  intros Hp He. unfold binary_round_aux.
  rewrite shr_fexp_exact_53 by (assumption || lia).
  cbn [shr_m loc_of_shr_record round_nearest_even].
  rewrite shr_fexp_exact_53 by (assumption || lia).
  cbn [shr_m]. destruct (Z.leb_spec e (emax - prec)) as [_|Hbad]; [reflexivity|].
  unfold emax, prec in Hbad. lia.
Qed.

(** An integer below 2^53 in absolute value converts to a finite float. *)
Lemma binary_round_int s p :
  Zpos p < 2 ^ 53 -> exists m e, binary_round prec emax s p 0 = S754_finite s m e.
Proof.
  intros Hp. unfold binary_round.
  pose proof (digits2_pos_bounds p) as Hd.
  set (d := Zpos (digits2_pos p)) in *.
  assert (Hd' : 1 <= d <= 53).
  { split; [subst d; lia|]. destruct (Z_lt_le_dec 53 d) as [Hgt|]; [|lia].
    assert (2 ^ 53 <= 2 ^ (d - 1)) by (apply Z.pow_le_mono_r; lia). lia. }
  rewrite Z.add_0_r, fexp_normal by lia.
  unfold shl_align. rewrite Z.sub_0_r.
  destruct (d - 53) as [|k|k] eqn:Ek; try lia.
  - assert (d = 53) as Hd53 by lia. rewrite Hd53 in Hd. change (53 - 1) with 52 in Hd.
    eexists _, _. apply binary_round_aux_exact_53; lia.
  - eexists _, _. apply binary_round_aux_exact_53; [|lia].
    rewrite iter_xO_pow.
    assert (Hk : Zpos k = 53 - d) by lia.
    assert (Hpow : 2 ^ (d - 1) * 2 ^ Zpos k = 2 ^ 52).
    { rewrite <- Z.pow_add_r by lia. f_equal. lia. }
    assert (Hpow' : 2 ^ d * 2 ^ Zpos k = 2 ^ 53).
    { rewrite <- Z.pow_add_r by lia. f_equal. lia. }
    assert (0 < 2 ^ Zpos k) by (apply Z.pow_pos_nonneg; lia).
    split.
    + rewrite <- Hpow. apply Z.mul_le_mono_nonneg_r; lia.
    + rewrite <- Hpow'. apply Z.mul_lt_mono_pos_r; lia.
Qed.

Lemma float_of_int_small z :
  Z.abs z < 2 ^ 53 -> exists x, float_of_int z = Return x.
Proof.
  intros Hz. unfold float_of_int, binary_normalize.
  destruct z as [|p|p].
  - eexists. reflexivity.
  - destruct (binary_round_int false p ltac:(lia)) as (m & e & ->). eexists. reflexivity.
  - destruct (binary_round_int true p ltac:(lia)) as (m & e & ->). eexists. reflexivity.
Qed.


(** Dividing [0 <= s] by [0 < N < 2^53] with [s <= N] yields a float that
    is zero or finite. *)
Definition is_finite_SF (x : spec_float) : bool :=
  match x with
  | S754_zero _ | S754_finite _ _ _ => true
  | _ => false
  end.


Lemma SFcompare_refl s m e :
  SFcompare (S754_finite s m e) (S754_finite s m e) = Some Eq.
Proof.
  cbn. rewrite Z.compare_refl.
  assert (Pos.compare_cont Eq m m = Eq) as -> by apply Pos.compare_cont_refl.
  destruct s; reflexivity.
Qed.

(** [x - 0.0 * d] compares equal to [x] for finite [x] and [d]. *)
Lemma SFsub_zero_mul x sz d :
  is_finite_SF x = true -> is_finite_SF d = true ->
  SFeqb (SFsub prec emax x (SFmul prec emax (S754_zero sz) d)) x = true.
Proof.
  intros Hx Hd. unfold SFeqb.
  destruct d as [sd| | |sd md ed]; try discriminate; cbn [SFmul].
  - destruct x as [sx| | |sx mx ex]; try discriminate; cbn [SFsub].
    + destruct sx, (xorb sz sd); reflexivity.
    + rewrite SFcompare_refl. reflexivity.
  - destruct x as [sx| | |sx mx ex]; try discriminate; cbn [SFsub].
    + destruct sx, (xorb sz sd); reflexivity.
    + rewrite SFcompare_refl. reflexivity.
Qed.

Import AtariRainbow.

(** ** atari_rainbow.py: [train_fn] *)



(** The rational a float stands for (0 for the infinities and NaN). *)
Definition SF2Q (x : spec_float) : Q :=
  match x with
  | S754_finite s m e =>
      ((if s then inject_Z (Zneg m) else inject_Z (Zpos m)) * Qpower 2 e)%Q
  | _ => 0%Q
  end.

(** The same arguments, read as rationals. *)
Definition exact_args (a : Args spec_float) : Args Q :=
  {| env_id := env_id a;
     eps_test := SF2Q (eps_test a);
     eps_train := SF2Q (eps_train a);
     eps_train_final := SF2Q (eps_train_final a);
     no_priority := no_priority a;
     beta := SF2Q (beta a);
     beta_final := SF2Q (beta_final a);
     beta_anneal_step := beta_anneal_step a |}.

(** The schedule in exact arithmetic. *)
Definition exact_schedule (b0 bf : Q) (N s : Z) : Q :=
  if s <=? N then (b0 - inject_Z s / inject_Z N * (b0 - bf))%Q else bf.

Lemma exact_schedule_start b0 bf N : 0 < N -> (exact_schedule b0 bf N 0 == b0)%Q.
Proof.
  intros HN. unfold exact_schedule. destruct (Z.leb_spec 0 N); [|lia].
  unfold Qdiv. change (inject_Z 0) with 0%Q. ring.
Qed.

Lemma exact_schedule_end b0 bf N : 0 < N -> (exact_schedule b0 bf N N == bf)%Q.
Proof.
  intros HN. unfold exact_schedule. destruct (Z.leb_spec N N); [|lia].
  assert (Hn : ~ (inject_Z N == 0)%Q).
  { intros E. unfold Qeq, inject_Z in E. cbn in E. lia. }
  field. exact Hn.
Qed.

Lemma inject_Z_div_le s s' N :
  0 < N -> s <= s' -> (inject_Z s / inject_Z N <= inject_Z s' / inject_Z N)%Q.
Proof.
  intros HN Hs. unfold Qdiv. apply Qmult_le_compat_r.
  - rewrite <- Zle_Qle. exact Hs.
  - apply Qinv_le_0_compat. change 0%Q with (inject_Z 0). rewrite <- Zle_Qle. lia.
Qed.

Lemma inject_Z_div_le_1 s N :
  0 < N -> s <= N -> (inject_Z s / inject_Z N <= 1)%Q.
Proof.
  intros HN Hs. apply Qle_shift_div_r.
  - change 0%Q with (inject_Z 0). rewrite <- Zlt_Qlt. exact HN.
  - rewrite Qmult_1_l, <- Zle_Qle. exact Hs.
Qed.













Import PPOPenalty.

(** ** rl_args.py and ppo_penalty.py *)

(** [PPOArguments] declares no field [norm_advantages], and neither does
    [RLArguments]. *)
Lemma getattr_norm_advantages (a : PPOArguments) :
  getattr a "norm_advantages" = Raise (AttributeError "norm_advantages").
Proof. reflexivity. Qed.

(** C5.  On an agent whose arguments are a [PPOArguments], [learn] never
    returns: every run ends in an exception and leaves the agent (network
    parameters, optimizer and [learner_update_step]) as it was; and when the
    forward pass up to the entropy loss raises nothing, the exception is the
    [AttributeError] for [norm_advantages]. *)
Theorem learn_raises_before_update `{Torch} (self : Agent) (batch : RolloutBufferSamples) :
  (exists e, learn batch self = (Raise e, self)) /\
  (forall v l d p en el,
     actor_critic_get_value (network self) (obs batch) = Return v ->
     actor_critic_get_action (network self) (obs batch) = Return l ->
     Categorical l = Return d ->
     log_prob d (actions batch) = Return p ->
     entropy d = Return en ->
     t_mean en = Return el ->
     learn batch self = (Raise (AttributeError "norm_advantages"), self)).
Proof.
  split.
  - unfold learn. unfold bind at 1, get at 1.
    unfold bind at 1, lift at 1.
    destruct (actor_critic_get_value (network self) (obs batch)); [|eexists; reflexivity].
    unfold bind at 1, lift at 1.
    destruct (actor_critic_get_action (network self) (obs batch)) as [l|]; [|eexists; reflexivity].
    unfold bind at 1, lift at 1.
    destruct (Categorical l) as [d|]; [|eexists; reflexivity].
    unfold bind at 1, lift at 1.
    destruct (log_prob d (actions batch)); [|eexists; reflexivity].
    unfold bind at 1, lift at 1.
    destruct (entropy d) as [en|]; [|eexists; reflexivity].
    unfold bind at 1, lift at 1.
    destruct (t_mean en); [|eexists; reflexivity].
    unfold bind at 1, self_args at 1. rewrite getattr_norm_advantages.
    eexists; reflexivity.
  - intros v l d p en el Hv Hl Hd Hp Hen Hel.
    unfold learn. unfold bind at 1, get at 1.
    unfold bind at 1, lift at 1. rewrite Hv.
    unfold bind at 1, lift at 1. rewrite Hl.
    unfold bind at 1, lift at 1. rewrite Hd.
    unfold bind at 1, lift at 1. rewrite Hp.
    unfold bind at 1, lift at 1. rewrite Hen.
    unfold bind at 1, lift at 1. rewrite Hel.
    unfold bind at 1, self_args at 1. rewrite getattr_norm_advantages.
    reflexivity.
Qed.

(** A tensor library with one tensor, on which every call succeeds. *)
Definition unit_torch : Torch :=
  {| tensor := unit; params := unit; optim := unit; distribution := unit;
     actor_critic_get_value := fun _ _ => Return tt;
     actor_critic_get_action := fun _ _ => Return tt;
     Categorical := fun _ => Return tt;
     log_prob := fun _ _ => Return tt;
     entropy := fun _ => Return tt;
     t_mean := fun _ => Return tt;
     t_std := fun _ => Return tt;
     t_sub := fun _ _ => Return tt;
     t_add := fun _ _ => Return tt;
     t_mul := fun _ _ => Return tt;
     t_div := fun _ _ => Return tt;
     t_neg := fun _ => Return tt;
     t_exp := fun _ => Return tt;
     t_pow2 := fun _ => Return tt;
     t_min := fun _ _ => Return tt;
     t_max := fun _ _ => Return tt;
     t_clamp := fun _ _ _ => Return tt;
     t_gt := fun _ _ => Return tt;
     t_lt := fun _ _ => Return tt;
     t_or := fun _ _ => Return tt;
     as_float32 := fun _ => Return tt;
     scalar := fun _ => Return tt;
     lit := fun _ => tt;
     item := fun _ => Return (S754_zero false);
     zero_grad := fun p o => Return (p, o);
     backward := fun _ p => Return p;
     clip_grad_norm := fun _ p => Return p;
     optimizer_step := fun p o => Return (p, o) |}.

(** With the default arguments and a forward pass that succeeds, [learn]
    raises the [AttributeError] and the update counter stays at 0. *)
Lemma learn_raises_before_update_default :
  @learn unit_torch (@mkBatch unit_torch tt tt tt tt tt tt) (@mkAgent unit_torch PPOArguments_default tt tt 0)
  = (Raise (AttributeError "norm_advantages"), @mkAgent unit_torch PPOArguments_default tt tt 0).
Proof.
  exact (proj2 (@learn_raises_before_update unit_torch
                  (@mkAgent unit_torch PPOArguments_default tt tt 0) (@mkBatch unit_torch tt tt tt tt tt tt))
           tt tt tt tt tt tt eq_refl eq_refl eq_refl eq_refl eq_refl eq_refl).
Defined.

Import EnvUtils.

(** ** envs/utils.py: [CloudpickleWrapper] *)

(** C10.  When [cloudpickle.loads] inverts [cloudpickle.dumps], pickling a
    wrapper that holds a picklable value [v] and unpickling the result gives
    a wrapper whose data is [v]: [__getstate__] returns the pickle of [v]
    and leaves the wrapper as it is, and [__setstate__] on that pickle sets
    the data of any wrapper to [v]. *)
Theorem cloudpickle_wrapper_roundtrip (value pickled : Type)
  (dumps : value -> result pickled) (loads : pickled -> result value)
  (v : value) (s : pickled) (w : CloudpickleWrapper value) :
  (forall v s, dumps v = Return s -> loads s = Return v) ->
  dumps v = Return s ->
  getstate value pickled dumps (mkWrapper value (Some v))
    = (Return s, mkWrapper value (Some v)) /\
  setstate value pickled loads s w = (Return tt, mkWrapper value (Some v)) /\
  roundtrip value pickled dumps loads (mkWrapper value (Some v))
    = Return (mkWrapper value (Some v)).
Proof.
  intros Hinv Hs. pose proof (Hinv v s Hs) as Hl.
  unfold roundtrip, getstate, setstate, bind, self_data, lift, put. cbn [data].
  rewrite Hs, Hl. auto.
Qed.

(** A pickler of integers: shifting by one and back. *)
Lemma cloudpickle_wrapper_roundtrip_shift :
  roundtrip Z Z (fun v => Return (v + 1)) (fun s => Return (s - 1)) (mkWrapper Z (Some 41))
  = Return (mkWrapper Z (Some 41)).
Proof.
  refine (proj2 (proj2 (cloudpickle_wrapper_roundtrip Z Z (fun v => Return (v + 1))
                          (fun s => Return (s - 1)) 41 42 (mkWrapper Z None) _ eq_refl))).
  intros v s Hd. injection Hd as <-. f_equal. lia.
Defined.

(** ** The single-buffer engine *)

Lemma mod_distinct N j n :
  0 < N -> 0 <= j < n -> n - j < N -> j mod N <> n mod N.
Proof.
  intros HN Hj Hd E.
  assert (H0 : (n - j) mod N = 0) by (rewrite Zminus_mod, E, Z.sub_diag; apply Z.mod_0_l; lia).
  rewrite Z.mod_small in H0 by lia. lia.
Qed.

Section EngineFacts.

Context {T : Type}.
Variables (N : Z) (kwargs : gmap string pyval).

(** What a buffer of capacity [N] holds after the transitions [xs] were
    added to it, oldest first. *)
Definition holds (xs : list T) (b : ReplayBuffer.t T) : Prop :=
  ReplayBuffer.maxsize b = N /\
  length (ReplayBuffer.data b) = Z.to_nat N /\
  ReplayBuffer.index b = Z.of_nat (length xs) mod N /\
  ReplayBuffer.size b = Z.min (Z.of_nat (length xs)) N /\
  forall (j : nat) x,
    xs !! j = Some x -> Z.of_nat (length xs) - N <= Z.of_nat j ->
    ReplayBuffer.data b !! Z.to_nat (Z.of_nat j mod N) = Some (Some x).

Lemma holds_init b0 : ReplayBuffer.init N kwargs = Return b0 -> 0 < N /\ holds [] b0.
Proof.
  unfold ReplayBuffer.init. destruct (Z.leb_spec N 0) as [|HN]; [discriminate|].
  intros [= <-]. split; [exact HN|]. unfold holds. cbn.
  rewrite length_replicate, Z.mod_0_l by lia.
  repeat split; try lia. intros j x Hj. rewrite lookup_nil in Hj. discriminate.
Qed.

Lemma holds_add xs b x :
  0 < N -> holds xs b -> holds (xs ++ [x]) (fst (ReplayBuffer.add b x)).
Proof.
  intros HN (Hmax & Hlen & Hidx & Hsize & Hdata).
  unfold holds, ReplayBuffer.add. cbn [fst ReplayBuffer.maxsize ReplayBuffer.data
    ReplayBuffer.index ReplayBuffer.size].
  rewrite length_app, length_insert. cbn [length].
  rewrite Nat2Z.inj_add. change (Z.of_nat 1) with 1.
  rewrite Hmax, Hidx, Hsize.
  split; [reflexivity|]. split; [exact Hlen|].
  split; [apply Z.add_mod_idemp_l; lia|]. split; [lia|].
  intros j y Hj Hrange.
  pose proof (Z.mod_pos_bound (Z.of_nat (length xs)) N HN) as Hb1.
  pose proof (Z.mod_pos_bound (Z.of_nat j) N HN) as Hb2.
  destruct (decide (j = length xs)) as [->|Hne].
  - rewrite lookup_app_r, Nat.sub_diag in Hj by lia. injection Hj as <-.
    apply list_lookup_insert_eq. rewrite Hlen. lia.
  - assert (Hlt : (j < length xs)%nat).
    { apply lookup_lt_Some in Hj. rewrite length_app in Hj. cbn in Hj. lia. }
    rewrite lookup_app_l in Hj by assumption.
    rewrite list_lookup_insert_ne.
    + apply Hdata; [assumption|lia].
    + intros E. apply Z2Nat.inj in E; [|lia|lia].
      symmetry in E. revert E. apply mod_distinct; lia.
Qed.

Lemma holds_add_all xs ys b :
  0 < N -> holds xs b -> holds (xs ++ ys) (ReplayBuffer.add_all b ys).
Proof.
  intros HN. revert xs b. induction ys as [|y ys IH]; intros xs b Hb.
  - rewrite app_nil_r. exact Hb.
  - cbn [ReplayBuffer.add_all fold_left].
    replace (xs ++ y :: ys) with ((xs ++ [y]) ++ ys) by (rewrite <- app_assoc; reflexivity).
    apply (IH (xs ++ [y])). apply holds_add; assumption.
Qed.

End EngineFacts.

(** C2.  A buffer built with capacity [N] to which the transitions [xs]
    were added, oldest first: its size is [min (length xs) N], hence [N] once
    more than [N] were added; its cursor is [length xs mod N]; each of the
    last [N] transitions, number [j] of the sequence, is in slot [j mod N],
    so that once the buffer is full the cursor stands on the oldest
    transition left, the one the next write replaces.  After 7 transitions
    tagged 0 to 6 were added to a buffer of capacity 5 the slots hold
    5, 6, 2, 3, 4 and the cursor is 2. *)
Theorem add_overwrites_oldest {T : Type} (N : Z) (kwargs : gmap string pyval)
  (b0 : ReplayBuffer.t T) (xs : list T) :
  ReplayBuffer.init N kwargs = Return b0 ->
  ReplayBuffer.size (ReplayBuffer.add_all b0 xs) = Z.min (Z.of_nat (length xs)) N /\
  (N < Z.of_nat (length xs) -> ReplayBuffer.size (ReplayBuffer.add_all b0 xs) = N) /\
  ReplayBuffer.index (ReplayBuffer.add_all b0 xs) = Z.of_nat (length xs) mod N /\
  (forall (j : nat) x,
     xs !! j = Some x -> Z.of_nat (length xs) - N <= Z.of_nat j ->
     ReplayBuffer.data (ReplayBuffer.add_all b0 xs) !! Z.to_nat (Z.of_nat j mod N)
       = Some (Some x)) /\
  (forall oldest,
     N <= Z.of_nat (length xs) ->
     xs !! Z.to_nat (Z.of_nat (length xs) - N) = Some oldest ->
     ReplayBuffer.data (ReplayBuffer.add_all b0 xs)
       !! Z.to_nat (ReplayBuffer.index (ReplayBuffer.add_all b0 xs))
       = Some (Some oldest)) /\
  (forall b5 : ReplayBuffer.t Z,
     ReplayBuffer.init 5 kwargs = Return b5 ->
     ReplayBuffer.data (ReplayBuffer.add_all b5 [0; 1; 2; 3; 4; 5; 6])
       = [Some 5; Some 6; Some 2; Some 3; Some 4] /\
     ReplayBuffer.index (ReplayBuffer.add_all b5 [0; 1; 2; 3; 4; 5; 6]) = 2 /\
     ReplayBuffer.size (ReplayBuffer.add_all b5 [0; 1; 2; 3; 4; 5; 6]) = 5).
Proof.
  intros Hinit. destruct (holds_init N kwargs b0 Hinit) as [HN H0].
  pose proof (holds_add_all N [] xs b0 HN H0) as (Hmax & Hlen & Hidx & Hsize & Hdata).
  cbn [app] in *.
  split; [exact Hsize|]. split; [lia|]. split; [exact Hidx|]. split; [exact Hdata|].
  split.
  - intros oldest Hfull Hold. rewrite Hidx.
    set (n := Z.of_nat (length xs)) in *.
    replace (n mod N) with (Z.of_nat (Z.to_nat (n - N)) mod N).
    + apply Hdata; [exact Hold|]. subst n. lia.
    + rewrite Z2Nat.id by lia. replace (n - N) with (n + (-1) * N) by lia.
      apply Z.mod_add. lia.
  - intros b5 H5. unfold ReplayBuffer.init in H5. cbn in H5. injection H5 as <-.
    repeat split; reflexivity.
Qed.

(** Seven tagged transitions into a buffer of capacity five. *)
Lemma add_overwrites_oldest_7_into_5 :
  ReplayBuffer.index
    (ReplayBuffer.add_all (ReplayBuffer.mk 5 ∅ (replicate 5 None) 0 0) [0; 1; 2; 3; 4; 5; 6])
  = Z.of_nat 7 mod 5.
Proof.
  exact (proj1 (proj2 (proj2 (add_overwrites_oldest 5 ∅
                                (ReplayBuffer.mk 5 ∅ (replicate 5 None) 0 0)
                                [0; 1; 2; 3; 4; 5; 6] eq_refl)))).
Defined.

(** ** The priority index *)

Module SumTreeFacts.

Import SumTree.
Local Open Scope nat_scope.


(** *** The shape of the index and its leaves, in any arithmetic *)

Section Shape.

Context {F : Type} `{Num F}.








Variable pow_alpha : F -> F.













End Shape.

(** *** The sums, in exact arithmetic *)








Section UpdateFacts.

Variable pow_alpha : Q -> Q.



End UpdateFacts.









End SumTreeFacts.

(** * Further properties *)

(** ** vecbuf.py: the constructors and the heap *)

(** A call that creates one object at the end of the heap, or raises and
    leaves the heap as it is. *)
Definition allocates_or_raises (c : M heap nat) : Prop :=
  forall h, (exists o, c h = (Return (length h), h ++ [o])) \/
            (exists e, c h = (Raise e, h)).

Lemma ReplayBuffer_new_allocates size kwargs :
  allocates_or_raises (ReplayBuffer_new size kwargs).
Proof.
  intros h. unfold ReplayBuffer_new, bind, lift, alloc.
  destruct (ReplayBuffer.init size kwargs); [left|right]; eexists; reflexivity.
Qed.

Lemma HERReplayBuffer_new_allocates size kwargs :
  allocates_or_raises (HERReplayBuffer_new size kwargs).
Proof.
  intros h. unfold HERReplayBuffer_new, bind, lift, alloc.
  destruct (ReplayBuffer.init size kwargs); [left|right]; eexists; reflexivity.
Qed.

Lemma PrioritizedReplayBuffer_new_allocates size kwargs :
  allocates_or_raises (PrioritizedReplayBuffer_new size kwargs).
Proof.
  intros h. unfold PrioritizedReplayBuffer_new, bind, lift, alloc.
  destruct (PrioritizedReplayBuffer_init size kwargs); [left|right]; eexists; reflexivity.
Qed.

Lemma replicateM_extends (c : M heap nat) n h :
  allocates_or_raises c ->
  exists r h', replicateM n c h = (r, h ++ h') /\
               forall l, r = Return l -> l = seq (length h) n /\ length h' = n.
Proof.
  intros Hc. revert h. induction n as [|n IH]; intros h.
  - exists (Return []), []. cbn [replicateM]. unfold ret. rewrite app_nil_r.
    split; [reflexivity|]. intros l Hl. injection Hl as <-. split; reflexivity.
  - cbn [replicateM]. unfold bind at 1.
    destruct (Hc h) as [[o Ho]|[e He]].
    + rewrite Ho. destruct (IH (h ++ [o])) as (r & h1 & Hrun & Hfst).
      unfold bind at 1. rewrite Hrun. rewrite <- app_assoc. cbn [app].
      destruct r as [r|e].
      * exists (Return (length h :: r)), (o :: h1). unfold ret.
        split; [reflexivity|].
        intros l Hl. injection Hl as <-. destruct (Hfst r eq_refl) as [-> Hlen].
        rewrite length_app. cbn [length]. rewrite Nat.add_1_r. cbn [seq].
        split; [reflexivity|lia].
      * exists (Raise e), (o :: h1). split; [reflexivity|]. intros l Hl. discriminate.
    + rewrite He. exists (Raise e), []. rewrite app_nil_r.
      split; [reflexivity|]. intros l Hl. discriminate.
Qed.

(** The heap after a constructor call is the heap before followed by the
    objects the call created; when the call returns a manager, its
    references are those objects, [buffer_num] of them, in order. *)
Definition extends_heap (c : M heap Manager) (buffer_num : Z) (h : heap) : Prop :=
  exists r h', c h = (r, h ++ h') /\
               forall m, r = Return m ->
                         buffers m = seq (length h) (Z.to_nat buffer_num) /\
                         length h' = Z.to_nat buffer_num.

Lemma vector_init_extends new T k kwargs h :
  (forall size, allocates_or_raises (new size kwargs)) ->
  extends_heap (vector_init new T k kwargs) k h.
Proof.
  intros Hnew. unfold extends_heap, vector_init.
  unfold bind at 1. destruct (0 <? k); cbn [assert ret raise].
  2:{ eexists _, []. rewrite app_nil_r. split; [reflexivity|]. intros m Hm. discriminate. }
  unfold bind at 1, lift at 1. destruct (int_truediv T k) as [q|e].
  2:{ eexists _, []. rewrite app_nil_r. split; [reflexivity|]. intros m Hm. discriminate. }
  unfold bind at 1, lift at 1. destruct (int_ceil q) as [size|e].
  2:{ eexists _, []. rewrite app_nil_r. split; [reflexivity|]. intros m Hm. discriminate. }
  unfold bind at 1.
  destruct (replicateM_extends (new size kwargs) (Z.to_nat k) h (Hnew size))
    as (r & h' & Hrun & Hfst).
  rewrite Hrun. destruct r as [l|e].
  - unfold ReplayBufferManager_init, bind, get, lift, ret.
    destruct (capacities (h ++ h') l).
    + eexists _, h'. split; [reflexivity|]. intros m Hm. injection Hm as <-. cbn [buffers].
      apply Hfst. reflexivity.
    + eexists _, h'. split; [reflexivity|]. intros m Hm. discriminate.
  - eexists _, h'. split; [reflexivity|]. intros m Hm. discriminate.
Qed.

(** X1.  Whatever its arguments, and whether it returns or raises, a
    constructor of a vector buffer leaves every object already on the heap
    as it is: the heap after the call is the heap before, followed by the
    sub-buffers the call created.  When it returns, the manager refers to
    exactly these new objects, [buffer_num] of them, in order of creation. *)
Theorem vector_constructors_extend_heap (T k : Z) (kwargs : Kwargs) (h : heap) :
  extends_heap (VectorReplayBuffer_init T k kwargs) k h /\
  extends_heap (PrioritizedVectorReplayBuffer_init T k kwargs) k h /\
  extends_heap (HERVectorReplayBuffer_init T k kwargs) k h.
Proof.
  split; [|split].
  - apply (vector_init_extends ReplayBuffer_new). intros size. apply ReplayBuffer_new_allocates.
  - apply (vector_init_extends PrioritizedReplayBuffer_new). intros size.
    apply PrioritizedReplayBuffer_new_allocates.
  - apply (vector_init_extends HERReplayBuffer_new). intros size.
    apply HERReplayBuffer_new_allocates.
Qed.

(** ** vecbuf.py: [set_beta] after [set_beta], and after construction *)

(** A manager all of whose sub-buffers are prioritized buffers on the heap. *)
Definition prioritized_manager (self : Manager) (h : heap) : Prop :=
  forall l, l ∈ buffers self -> exists o, h !! l = Some o /\ is_prioritized o.

Lemma with_beta_with_beta b1 b2 o : with_beta b2 (with_beta b1 o) = with_beta b2 o.
Proof. destruct o; reflexivity. Qed.

Lemma with_beta_prioritized b o : is_prioritized o -> is_prioritized (with_beta b o).
Proof. destruct o; cbn; auto. Qed.

(** X2.  On a manager whose sub-buffers are prioritized buffers, the last
    call of [set_beta] wins: calling it with [b1] and then with [b2] leaves
    the heap as one call with [b2] does; and a call with the exponent every
    sub-buffer already has changes nothing. *)
Theorem set_beta_last_call_wins (self : Manager) (b1 b2 : pyval) (h : heap) :
  prioritized_manager self h ->
  (let* _ := set_beta self b1 in set_beta self b2) h = set_beta self b2 h /\
  ((forall l p, l ∈ buffers self -> h !! l = Some (Prioritized p) -> VecBuf.beta p = b1) ->
   set_beta self b1 h = (Return tt, h)).
Proof.
  intros Hwf.
  destruct (for_each_set_beta b1 (buffers self) h Hwf) as (h1 & Hrun1 & Hlen1 & Hlook1).
  destruct (for_each_set_beta b2 (buffers self) h Hwf) as (h2 & Hrun2 & Hlen2 & Hlook2).
  split.
  - assert (Hwf1 : prioritized_manager self h1).
    { intros l Hl. destruct (Hwf l Hl) as (o & Ho & Hp).
      exists (with_beta b1 o). rewrite Hlook1, bool_decide_eq_true_2, Ho by assumption.
      split; [reflexivity|apply with_beta_prioritized; assumption]. }
    destruct (for_each_set_beta b2 (buffers self) h1 Hwf1) as (h3 & Hrun3 & Hlen3 & Hlook3).
    unfold bind, set_beta. rewrite Hrun1, Hrun3, Hrun2. f_equal.
    apply list_eq. intros l. rewrite Hlook3, Hlook1, Hlook2.
    destruct (h !! l) as [o|]; [|reflexivity]. cbn.
    destruct (bool_decide (l ∈ buffers self)); [|reflexivity].
    rewrite with_beta_with_beta. reflexivity.
  - intros Hsame. unfold set_beta. rewrite Hrun1. f_equal.
    apply list_eq. intros l. rewrite Hlook1.
    destruct (h !! l) as [o|] eqn:Ho; [|reflexivity]. cbn.
    destruct (decide (l ∈ buffers self)) as [Hin|Hnin].
    + rewrite bool_decide_eq_true_2 by assumption.
      destruct o as [r|p|r]; try reflexivity.
      cbn. rewrite <- (Hsame l p Hin Ho). destruct p; reflexivity.
    + rewrite bool_decide_eq_false_2 by assumption. reflexivity.
Qed.

(** Two prioritized buffers with exponent 0.4, set to 0.6 and then to 1.0. *)
Lemma set_beta_last_call_wins_two_buffers :
  (let* _ := set_beta (manager_of 0 2 2) (PyFloat (S754_finite false 5404319552844595 (-53))) in
   set_beta (manager_of 0 2 2) (PyFloat (S754_finite false 4503599627370496 (-52))))
    (replicate 2 (Prioritized (mkPrio (empty_buffer 2 ∅) PyNone
                                 (PyFloat (S754_finite false 7205759403792794 (-54)))
                                 (SumTree.init 2))))
  = set_beta (manager_of 0 2 2) (PyFloat (S754_finite false 4503599627370496 (-52)))
      (replicate 2 (Prioritized (mkPrio (empty_buffer 2 ∅) PyNone
                                   (PyFloat (S754_finite false 7205759403792794 (-54)))
                                   (SumTree.init 2)))).
Proof.
  refine (proj1 (set_beta_last_call_wins (manager_of 0 2 2) _ _ _ _)).
  intros l Hl. cbn in Hl.
  apply elem_of_cons in Hl as [->|Hl]; [eexists; split; [reflexivity|exact I]|].
  apply elem_of_cons in Hl as [->|Hl]; [eexists; split; [reflexivity|exact I]|].
  apply elem_of_nil in Hl. contradiction.
Defined.




(** ** binary64: integers below 2^53 convert exactly *)

Lemma binary_round_int_exact s p :
  Zpos p < 2 ^ 53 ->
  exists m e, binary_round prec emax s p 0 = S754_finite s m e /\
              e <= 0 /\ Zpos m = Zpos p * 2 ^ (- e).
Proof.
  intros Hp. unfold binary_round.
  pose proof (digits2_pos_bounds p) as Hd.
  set (d := Zpos (digits2_pos p)) in *.
  assert (Hd' : 1 <= d <= 53).
  { split; [subst d; lia|]. destruct (Z_lt_le_dec 53 d) as [Hgt|]; [|lia].
    assert (2 ^ 53 <= 2 ^ (d - 1)) by (apply Z.pow_le_mono_r; lia). lia. }
  rewrite Z.add_0_r, fexp_normal by lia.
  unfold shl_align. rewrite Z.sub_0_r.
  destruct (d - 53) as [|k|k] eqn:Ek; try lia.
  - assert (d = 53) as Hd53 by lia. rewrite Hd53 in Hd. change (53 - 1) with 52 in Hd.
    exists p, 0. split; [apply binary_round_aux_exact_53; lia|].
    split; [lia|]. change (2 ^ (- 0)) with 1. lia.
  - exists (Pos.iter xO p k), (Zneg k).
    assert (Hk : Zpos k = 53 - d) by lia.
    split; [|split; [lia|]].
    + apply binary_round_aux_exact_53; [|lia].
      rewrite iter_xO_pow.
      assert (Hpow : 2 ^ (d - 1) * 2 ^ Zpos k = 2 ^ 52).
      { rewrite <- Z.pow_add_r by lia. f_equal. lia. }
      assert (Hpow' : 2 ^ d * 2 ^ Zpos k = 2 ^ 53).
      { rewrite <- Z.pow_add_r by lia. f_equal. lia. }
      assert (0 < 2 ^ Zpos k) by (apply Z.pow_pos_nonneg; lia).
      split.
      * rewrite <- Hpow. apply Z.mul_le_mono_nonneg_r; lia.
      * rewrite <- Hpow'. apply Z.mul_lt_mono_pos_r; lia.
    + rewrite iter_xO_pow. reflexivity.
Qed.

Lemma SF2Q_scaled s m e p :
  e <= 0 -> Zpos m = Zpos p * 2 ^ (- e) ->
  (SF2Q (S754_finite s m e) == inject_Z (if s then Zneg p else Zpos p))%Q.
Proof.
  intros He Hm. unfold SF2Q.
  assert (Hpow : (Qpower 2 e == / inject_Z (2 ^ (- e)))%Q).
  { replace e with (- (- e)) at 1 by lia. rewrite Qpower_opp.
    rewrite Zpower_Qpower by lia. reflexivity. }
  assert (Hnz : ~ (inject_Z (2 ^ (- e)) == 0)%Q).
  { intros E. unfold Qeq, inject_Z in E. cbn in E.
    assert (0 < 2 ^ (- e)) by (apply Z.pow_pos_nonneg; lia). lia. }
  rewrite Hpow. destruct s.
  - change (Zneg m) with (- Zpos m). change (Zneg p) with (- Zpos p).
    rewrite Hm, !inject_Z_opp, inject_Z_mult. field. exact Hnz.
  - rewrite Hm, inject_Z_mult. field. exact Hnz.
Qed.

(** [float(z)] is [z] itself for an integer below 2^53 in absolute value. *)
Lemma float_of_int_exact z :
  Z.abs z < 2 ^ 53 -> exists x, float_of_int z = Return x /\ (SF2Q x == inject_Z z)%Q.
Proof.
  intros Hz. unfold float_of_int, binary_normalize.
  destruct z as [|p|p].
  - eexists. split; reflexivity.
  - destruct (binary_round_int_exact false p ltac:(lia)) as (m & e & -> & He & Hm).
    eexists. split; [reflexivity|]. apply (SF2Q_scaled false m e p); assumption.
  - destruct (binary_round_int_exact true p ltac:(lia)) as (m & e & -> & He & Hm).
    eexists. split; [reflexivity|]. apply (SF2Q_scaled true m e p); assumption.
Qed.

(** ** atari_rainbow.py: the calls of [train_fn] *)

Lemma eps_passed_app {F} (tr evs : list (event F)) e :
  eps_passed evs = Some e -> eps_passed (tr ++ evs) = Some e.
Proof.
  unfold eps_passed. intros He. rewrite omap_app, last_app, He. reflexivity.
Qed.

(** The value [train_fn] passes to [policy.set_eps], whether or not the
    run fails later on. *)
Lemma train_fn_eps {F} `{FloatOps F} (args : Args F) epoch s tr x :
  (s <= 1000000 -> of_int s = Return x) ->
  eps_passed (snd (train_fn args epoch s tr)) =
    Some (if s <=? 1000000
          then fsub (eps_train args)
                 (fmul (fdiv x lit_1e6) (fsub (eps_train args) (eps_train_final args)))
          else eps_train_final args).
Proof.
  intros Hx. unfold train_fn.
  destruct (Z.leb_spec s 1000000) as [H6|H6]; [rewrite (Hx H6)|];
    destruct (s mod 1000 =? 0); destruct (no_priority args); cbn [negb];
    destruct (s <=? beta_anneal_step args);
    try destruct (int_div s (beta_anneal_step args));
    cbn [bind lift ret call]; unfold bind, lift, ret, call; cbn [snd];
    rewrite <- ?app_assoc; apply eps_passed_app; reflexivity.
Qed.

(** The [logger.write] call of a step that is a multiple of 1000. *)
Definition logged (env_step : Z) (key : string) (value : spec_float)
  : list (event spec_float) :=
  if env_step mod 1000 =? 0
  then [logger_write "train/env_step" env_step key value]
  else [].

(** The calls of a run of [train_fn] that returns. *)
Lemma train_fn_trace (args : Args spec_float) epoch s tr x q :
  (s <= 1000000 -> float_of_int s = Return x) ->
  (no_priority args = false -> s <= beta_anneal_step args ->
   int_truediv s (beta_anneal_step args) = Return q) ->
  let eps := if s <=? 1000000
             then SFsub prec emax (eps_train args)
                    (SFmul prec emax (SFdiv prec emax x lit_1e6)
                       (SFsub prec emax (eps_train args) (eps_train_final args)))
             else eps_train_final args in
  let b := if s <=? beta_anneal_step args
           then SFsub prec emax (beta args)
                  (SFmul prec emax q (SFsub prec emax (beta args) (beta_final args)))
           else beta_final args in
  train_fn args epoch s tr =
    (Return tt,
     tr ++ policy_set_eps eps :: logged s "train/eps" eps ++
       (if no_priority args then []
        else buffer_set_beta b :: logged s "train/beta" b)).
Proof.
  intros Hx Hq. unfold train_fn, logged.
  cbn [of_int int_div fsub fmul fdiv binary64].
  destruct (Z.leb_spec s 1000000) as [H6|H6]; [rewrite (Hx H6)|];
    (destruct (no_priority args); cbn [negb];
     [|destruct (Z.leb_spec s (beta_anneal_step args)) as [HN|HN];
       [rewrite (Hq eq_refl HN)|]]);
    destruct (s mod 1000 =? 0);
    cbn [bind lift ret call]; unfold bind, lift, ret, call;
    rewrite <- ?app_assoc; reflexivity.
Qed.

(** A step count that is not negative converts to a float when the
    schedule of the exploration rate needs it. *)
Lemma float_of_env_step s :
  0 <= s -> exists x, s <= 1000000 -> float_of_int s = Return x.
Proof.
  intros Hs. destruct (Z_le_gt_dec s 1000000) as [Hle|Hgt].
  - destruct (float_of_int_small s) as [x Hx].
    + change (2 ^ 53) with 9007199254740992. lia.
    + exists x. intros _. exact Hx.
  - exists (S754_zero false). lia.
Qed.

(** X4.  With [--no-priority], [train_fn] returns normally at every step
    count that is not negative, whatever [beta], [beta_final] and
    [beta_anneal_step] are (zero included): it calls [policy.set_eps] once,
    then [logger.write] once when the step count is a multiple of 1000, and
    makes no other call; in particular it never calls [buffer.set_beta]. *)
Theorem train_fn_without_priority (args : Args spec_float) (epoch env_step : Z)
  (tr : list (event spec_float)) :
  no_priority args = true -> 0 <= env_step ->
  exists eps,
    train_fn args epoch env_step tr =
      (Return tt, tr ++ policy_set_eps eps :: logged env_step "train/eps" eps).
Proof.
  intros Hnp Hs. destruct (float_of_env_step env_step Hs) as [x Hx].
  eexists. rewrite (train_fn_trace args epoch env_step tr x (S754_zero false) Hx).
  - rewrite Hnp, app_nil_r. reflexivity.
  - rewrite Hnp. discriminate.
Qed.

(** Step 2000 with [--no-priority --beta-anneal-step 0]. *)
Lemma train_fn_without_priority_step_2000 :
  exists eps,
    train_fn (mkArgs "PongNoFrameskip-v4" (eps_test default_args) (eps_train default_args)
                (eps_train_final default_args) true (beta default_args)
                (beta_final default_args) 0) 1 2000 []
    = (Return tt, [] ++ policy_set_eps eps :: logged 2000 "train/eps" eps).
Proof.
  apply (train_fn_without_priority
           (mkArgs "PongNoFrameskip-v4" (eps_test default_args) (eps_train default_args)
              (eps_train_final default_args) true (beta default_args)
              (beta_final default_args) 0) 1 2000 []).
  - reflexivity.
  - lia.
Defined.

(** X5.  With prioritized replay and [--beta-anneal-step 0], the call
    [train_fn(epoch, 0)] raises [ZeroDivisionError] from [0 / 0], after it
    has called [policy.set_eps] and [logger.write] and before any call of
    [buffer.set_beta]; at every later step the test
    [env_step <= beta_anneal_step] fails and the run passes [beta_final]. *)
Theorem train_fn_zero_anneal_step (args : Args spec_float) (epoch : Z)
  (tr : list (event spec_float)) :
  no_priority args = false -> beta_anneal_step args = 0 ->
  (exists eps,
     train_fn args epoch 0 tr =
       (Raise ZeroDivisionError,
        tr ++ [policy_set_eps eps; logger_write "train/env_step" 0 "train/eps" eps])) /\
  (forall env_step, 0 < env_step ->
   exists eps,
     train_fn args epoch env_step tr =
       (Return tt,
        tr ++ policy_set_eps eps :: logged env_step "train/eps" eps ++
          buffer_set_beta (beta_final args) ::
          logged env_step "train/beta" (beta_final args))).
Proof.
  intros Hnp HN. split.
  - eexists. unfold train_fn. rewrite Hnp, HN.
    cbn [of_int int_div fsub fmul fdiv binary64 negb].
    change (0 <=? 1000000) with true. change (0 mod 1000 =? 0) with true.
    change (0 <=? 0) with true. change (float_of_int 0) with (Return (S754_zero false)).
    change (int_truediv 0 0) with (@Raise spec_float ZeroDivisionError).
    cbn [bind lift ret call]. unfold bind, lift, ret, call.
    rewrite <- app_assoc. reflexivity.
  - intros env_step Hs. destruct (float_of_env_step env_step ltac:(lia)) as [x Hx].
    eexists. rewrite (train_fn_trace args epoch env_step tr x (S754_zero false) Hx).
    + rewrite Hnp, HN.
      destruct (Z.leb_spec env_step 0) as [Hle|_]; [lia|]. reflexivity.
    + intros _ Hle. lia.
Qed.

(** The defaults with [--beta-anneal-step 0], at step 0. *)
Lemma train_fn_zero_anneal_step_default :
  exists eps,
    train_fn (mkArgs "PongNoFrameskip-v4" (eps_test default_args) (eps_train default_args)
                (eps_train_final default_args) false (beta default_args)
                (beta_final default_args) 0) 1 0 []
    = (Raise ZeroDivisionError,
       [] ++ [policy_set_eps eps; logger_write "train/env_step" 0 "train/eps" eps]).
Proof.
  apply (train_fn_zero_anneal_step
           (mkArgs "PongNoFrameskip-v4" (eps_test default_args) (eps_train default_args)
              (eps_train_final default_args) false (beta default_args)
              (beta_final default_args) 0) 1 []).
  - reflexivity.
  - reflexivity.
Defined.

(** ** atari_rainbow.py: the schedule of the exploration rate *)

Lemma exact_schedule_anti b0 bf N s s' :
  0 < N -> (bf <= b0)%Q -> s <= s' ->
  (exact_schedule b0 bf N s' <= exact_schedule b0 bf N s)%Q.
Proof.
  intros HN Hb Hs. unfold exact_schedule.
  destruct (Z.leb_spec s N) as [H1|H1]; destruct (Z.leb_spec s' N) as [H2|H2]; try lia.
  - pose proof (inject_Z_div_le s s' N HN Hs) as Hx.
    set (x := (inject_Z s / inject_Z N)%Q) in *.
    set (x' := (inject_Z s' / inject_Z N)%Q) in *. nra.
  - pose proof (inject_Z_div_le_1 s N HN H1) as Hx.
    set (x := (inject_Z s / inject_Z N)%Q) in *. nra.
  - apply Qle_refl.
Qed.

(** X6.  At a step count [env_step >= 0], [train_fn] passes to
    [policy.set_eps], before anything that can fail in the rest of the run,
    the binary64 value of
    [eps_train - env_step / 1e6 * (eps_train - eps_train_final)], every
    operation rounded and [env_step] converted exactly, when
    [env_step <= 10^6], and [eps_train_final] beyond.  At step 0 the value
    compares equal to [eps_train] (for a finite [eps_train] and a finite
    difference).  With the default arguments the value at step [10^6] is
    0.050000000000000044, above [eps_train_final = 0.05].  In exact
    arithmetic, on the rationals the arguments stand for, the value is
    [eps_train] at step 0, [eps_train_final] at step [10^6], and never
    increases with the step count when [eps_train_final <= eps_train]. *)
Theorem train_fn_eps_schedule (args : Args spec_float) (epoch env_step : Z)
  (tr : list (event spec_float)) :
  0 <= env_step ->
  (env_step <= 1000000 ->
   exists x,
     float_of_int env_step = Return x /\ (SF2Q x == inject_Z env_step)%Q /\
     eps_passed (snd (train_fn args epoch env_step tr)) =
       Some (SFsub prec emax (eps_train args)
               (SFmul prec emax (SFdiv prec emax x lit_1e6)
                  (SFsub prec emax (eps_train args) (eps_train_final args))))) /\
  (1000000 < env_step ->
   eps_passed (snd (train_fn args epoch env_step tr)) = Some (eps_train_final args)) /\
  (is_finite_SF (eps_train args) = true ->
   is_finite_SF (SFsub prec emax (eps_train args) (eps_train_final args)) = true ->
   exists e,
     eps_passed (snd (train_fn args epoch 0 tr)) = Some e /\
     SFeqb e (eps_train args) = true) /\
  (eps_passed (snd (train_fn default_args epoch 1000000 tr))
     = Some (S754_finite false 7205759403792800 (-57)) /\
   SFltb (eps_train_final default_args) (S754_finite false 7205759403792800 (-57)) = true) /\
  (forall trq : list (event Q),
     eps_passed (snd (train_fn (exact_args args) epoch env_step trq)) =
       Some (exact_schedule (SF2Q (eps_train args)) (SF2Q (eps_train_final args))
               1000000 env_step)) /\
  (exact_schedule (SF2Q (eps_train args)) (SF2Q (eps_train_final args)) 1000000 0
   == SF2Q (eps_train args))%Q /\
  (exact_schedule (SF2Q (eps_train args)) (SF2Q (eps_train_final args)) 1000000 1000000
   == SF2Q (eps_train_final args))%Q /\
  ((SF2Q (eps_train_final args) <= SF2Q (eps_train args))%Q ->
   forall s s', s <= s' ->
     (exact_schedule (SF2Q (eps_train args)) (SF2Q (eps_train_final args)) 1000000 s'
      <= exact_schedule (SF2Q (eps_train args)) (SF2Q (eps_train_final args)) 1000000 s)%Q).
Proof.
  intros Hs.
  split; [|split; [|split; [|split; [|split; [|split; [|split]]]]]].
  - intros Hle. destruct (float_of_int_exact env_step) as (x & Hx & Hv).
    { change (2 ^ 53) with 9007199254740992. lia. }
    exists x. split; [exact Hx|]. split; [exact Hv|].
    rewrite (@train_fn_eps _ binary64 args epoch env_step tr x (fun _ => Hx)).
    destruct (Z.leb_spec env_step 1000000); [reflexivity|lia].
  - intros Hgt.
    rewrite (@train_fn_eps _ binary64 args epoch env_step tr (S754_zero false)) by (intros; lia).
    destruct (Z.leb_spec env_step 1000000); [lia|reflexivity].
  - intros Hfin Hdfin. eexists.
    rewrite (@train_fn_eps _ binary64 args epoch 0 tr (S754_zero false)) by (intros; reflexivity).
    split; [reflexivity|]. change (0 <=? 1000000) with true. cbv iota.
    change (fdiv (S754_zero false) lit_1e6) with (S754_zero false).
    apply SFsub_zero_mul; assumption.
  - split; [|vm_compute; reflexivity].
    rewrite (@train_fn_eps _ binary64 default_args epoch 1000000 tr
               (S754_finite false 8589934592000000 (-33))) by (intros; vm_compute; reflexivity).
    vm_compute. reflexivity.
  - intros trq.
    rewrite (@train_fn_eps _ exact (exact_args args) epoch env_step trq (inject_Z env_step))
      by (intros; reflexivity).
    reflexivity.
  - apply exact_schedule_start. lia.
  - apply exact_schedule_end. lia.
  - intros Hb s s' Hss. apply exact_schedule_anti; [lia|assumption|assumption].
Qed.

(** The defaults, half way through the decay. *)
Lemma train_fn_eps_schedule_default_midway :
  exists x,
    float_of_int 500000 = Return x /\ (SF2Q x == inject_Z 500000)%Q /\
    eps_passed (snd (train_fn default_args 1 500000 [])) =
      Some (SFsub prec emax (eps_train default_args)
              (SFmul prec emax (SFdiv prec emax x lit_1e6)
                 (SFsub prec emax (eps_train default_args) (eps_train_final default_args)))).
Proof.
  apply (train_fn_eps_schedule default_args 1 500000 []).
  - lia.
  - lia.
Defined.

(** ** atari_rainbow.py and vecbuf.py: the buffer under the training callback *)






(** ** atari_rainbow.py: [stop_fn] *)

(** [<=] on binary64 is transitive. *)
Lemma SFleb_trans x y z : SFleb x y = true -> SFleb y z = true -> SFleb x z = true.
Proof.
  unfold SFleb.
  destruct x as [sx| | |sx mx ex], y as [sy| | |sy my ey], z as [sz| | |sz mz ez];
    cbn [SFcompare]; try discriminate; try reflexivity;
    repeat match goal with s : bool |- _ => destruct s end;
    try discriminate; try reflexivity;
    rewrite ?Pos.compare_cont_spec; cbn [Pos.switch_Eq];
    destruct (Z.compare_spec ex ey), (Z.compare_spec ey ez), (Z.compare_spec ex ez);
    try discriminate; try reflexivity; try lia;
    destruct (Pos.compare_spec mx my), (Pos.compare_spec my mz), (Pos.compare_spec mx mz);
    cbn [CompOpp]; try discriminate; try reflexivity; lia.
Qed.

(** ['Pong' in env_id], as a fact about the characters of [env_id]. *)
Lemma index_Pong_substring (s : string) :
  (exists m, substring m 4 s = "Pong"%string) <-> index 0 "Pong" s <> None.
Proof.
  split.
  - intros [m Hm] Hnone.
    apply (index_correct3 0 m "Pong" s Hnone); [discriminate|lia|exact Hm].
  - destruct (index 0 "Pong" s) as [m|] eqn:E; [|congruence].
    intros _. exists m. exact (index_correct1 0 m "Pong" s E).
Qed.

(** X8.  [stop_fn(mean_rewards)].  With a reward threshold whose truth
    value is true (any float but 0.0 and -0.0), the result is
    [mean_rewards >= threshold], whatever the environment.  Without one
    ([None], 0.0 or -0.0) the Pong rule decides: the result is
    [mean_rewards >= 20] when the four characters "Pong" occur in [env_id],
    and false otherwise.  Hence a mean reward that is NaN never stops the
    training, and neither does any mean reward against a threshold that is
    NaN; and once a mean reward stops the training, every larger one does. *)
Theorem stop_fn_edge_cases (args : Args spec_float) (t : option spec_float)
  (r r' : spec_float) :
  (forall x, threshold_set (Some x) = true -> stop_fn args (Some x) r = SFleb x r) /\
  (threshold_set t = false ->
   (exists m, substring m 4 (AtariRainbow.env_id args) = "Pong"%string) ->
   stop_fn args t r = SFleb (S754_finite false 5629499534213120 (-48)) r) /\
  (threshold_set t = false ->
   (forall m, substring m 4 (AtariRainbow.env_id args) <> "Pong"%string) ->
   stop_fn args t r = false) /\
  (forall x, threshold_set (Some x) = false <-> exists s, x = S754_zero s) /\
  threshold_set None = false /\
  stop_fn args t S754_nan = false /\
  stop_fn args (Some S754_nan) r = false /\
  (stop_fn args t r = true -> SFleb r r' = true -> stop_fn args t r' = true).
Proof.
  split; [|split; [|split; [|split; [|split; [|split; [|split]]]]]].
  - intros x Hx. unfold stop_fn. rewrite Hx. reflexivity.
  - intros Ht Hin. unfold stop_fn. rewrite Ht.
    apply index_Pong_substring in Hin.
    destruct (index 0 "Pong" (AtariRainbow.env_id args)); [reflexivity|congruence].
  - intros Ht Hout. unfold stop_fn. rewrite Ht.
    destruct (index 0 "Pong" (AtariRainbow.env_id args)) as [m|] eqn:E; [|reflexivity].
    exfalso. apply (Hout m). exact (index_correct1 0 m "Pong" _ E).
  - intros x. split.
    + destruct x as [s| | |]; try discriminate. intros _. exists s. reflexivity.
    + intros [s ->]. reflexivity.
  - reflexivity.
  - unfold stop_fn. destruct (threshold_set t).
    + destruct t as [[| | |]|]; reflexivity.
    + destruct (index 0 "Pong" (AtariRainbow.env_id args)); reflexivity.
  - unfold stop_fn. cbn. destruct r; reflexivity.
  - unfold stop_fn. destruct (threshold_set t).
    + destruct t as [x|]; [|discriminate]. intros H1 H2. exact (SFleb_trans _ _ _ H1 H2).
    + destruct (index 0 "Pong" (AtariRainbow.env_id args)); [|discriminate].
      intros H1 H2. exact (SFleb_trans _ _ _ H1 H2).
Qed.

(** ** rl_args.py and ppo_penalty.py: the attributes the agent reads *)

(** The attributes of [self.args] that [PPOPenaltyAgent] reads, in the
    order of their first use: [__init__] reads the first three, [learn] the
    others. *)
Definition agent_reads : list string :=
  [ "hidden_dim"; "learning_rate"; "epsilon"; "norm_advantages"; "clip_param";
    "clip_vloss"; "value_loss_coef"; "entropy_coef"; "max_grad_norm" ]%string.

(** X9.  The fields of [PPOArguments], inherited ones included, have
    pairwise distinct names, so none hides another.  Of the attributes the
    agent reads from its arguments, [norm_advantages] is the only one a
    [PPOArguments] lacks: reading it raises [AttributeError], and reading
    any other gives the value of the field of that name. *)
Theorem ppo_arguments_attributes (a : PPOArguments) :
  NoDup (map fst (PPOArguments_dict a)) /\
  "norm_advantages"%string ∈ agent_reads /\
  getattr a "norm_advantages" = Raise (AttributeError "norm_advantages") /\
  (forall name, name ∈ agent_reads -> name <> "norm_advantages"%string ->
     exists v, getattr a name = Return v) /\
  getattr a "hidden_dim" = Return (PyInt (hidden_dim a)) /\
  getattr a "learning_rate" = Return (PyFloat (learning_rate a)) /\
  getattr a "epsilon" = Return (PyFloat (epsilon a)) /\
  getattr a "clip_param" = Return (PyFloat (clip_param a)) /\
  getattr a "clip_vloss" = Return (PyBool (clip_vloss a)) /\
  getattr a "value_loss_coef" = Return (PyFloat (value_loss_coef a)) /\
  getattr a "entropy_coef" = Return (PyFloat (entropy_coef a)) /\
  getattr a "max_grad_norm" = Return (opt_float (max_grad_norm a)).
Proof.
  split; [|split; [|split; [|split; [|repeat split; reflexivity]]]].
  - apply (bool_decide_unpack _). vm_compute. exact I.
  - apply (bool_decide_unpack _). vm_compute. exact I.
  - reflexivity.
  - intros name Hin Hne. unfold agent_reads in Hin.
    repeat (apply elem_of_cons in Hin as [->|Hin];
            [first [eexists; reflexivity | contradiction]|]).
    apply elem_of_nil in Hin. contradiction.
Qed.

(** ** envs/utils.py: what pickling leaves alone, and when it fails *)

(** X10.  [__getstate__] never changes the wrapper; on a wrapper without
    [data] it raises [AttributeError], and an exception of
    [cloudpickle.dumps] passes through.  [__setstate__] whose
    [cloudpickle.loads] raises leaves the wrapper as it was; one that
    returns replaces the data, whatever it was.  A round trip returns
    exactly when the wrapper has data, the data can be pickled and the pickle
    can be loaded, and then the new wrapper holds what [loads] gave. *)
Theorem cloudpickle_wrapper_failures (value pickled : Type)
  (dumps : value -> result pickled) (loads : pickled -> result value)
  (w : CloudpickleWrapper value) (s : pickled) :
  snd (getstate value pickled dumps w) = w /\
  (data value w = None ->
   getstate value pickled dumps w = (Raise (AttributeError "data"), w)) /\
  (forall v e, data value w = Some v -> dumps v = Raise e ->
     getstate value pickled dumps w = (Raise e, w) /\
     roundtrip value pickled dumps loads w = Raise e) /\
  (forall e, loads s = Raise e -> setstate value pickled loads s w = (Raise e, w)) /\
  (forall v, loads s = Return v ->
     setstate value pickled loads s w = (Return tt, mkWrapper value (Some v))) /\
  (forall w',
     roundtrip value pickled dumps loads w = Return w' <->
     exists v p v', data value w = Some v /\ dumps v = Return p /\
                    loads p = Return v' /\ w' = mkWrapper value (Some v')).
Proof.
  unfold roundtrip, getstate, setstate, bind, self_data, lift, put.
  split; [|split; [|split; [|split; [|split]]]].
  - destruct (data value w) as [v|]; [destruct (dumps v)|]; reflexivity.
  - intros ->. reflexivity.
  - intros v e -> ->. split; reflexivity.
  - intros e ->. reflexivity.
  - intros v ->. reflexivity.
  - intros w'. split.
    + destruct (data value w) as [v|]; [|discriminate].
      destruct (dumps v) as [p|] eqn:Hd; [|discriminate].
      destruct (loads p) as [v'|] eqn:Hl; [|discriminate].
      intros Hw. injection Hw as <-. exists v, p, v'. auto.
    + intros (v & p & v' & -> & -> & Hl & ->). rewrite Hl. reflexivity.
Qed.

(** ** rl_args.py: the argument classes *)

(** X11.  In every argument class of rl_args.py the field names, inherited
    ones included, are pairwise distinct (no class overrides a field of
    [RLArguments]), and none of them is [norm_advantages].  The three
    attributes the constructor of the PPO agent reads ([hidden_dim],
    [learning_rate], [epsilon]) are all present in [PPOArguments] and in no
    other class.  The attributes of a [PPOArguments] instance are its fields,
    in order. *)
Theorem arguments_classes_fields :
  (forall c, NoDup (fields c)) /\
  (forall c, "norm_advantages"%string ∉ fields c) /\
  (forall c,
     (forall name, name ∈ ["hidden_dim"; "learning_rate"; "epsilon"]%string ->
                   name ∈ fields c)
     <-> c = class_PPOArguments) /\
  (forall a, map fst (PPOArguments_dict a) = fields class_PPOArguments).
Proof.
  split; [|split; [|split]].
  - intros c. destruct c; apply (bool_decide_unpack _); vm_compute; exact I.
  - intros c. destruct c; apply (bool_decide_unpack _); vm_compute; exact I.
  - intros c. split.
    + intros Hall.
      assert (Heps : "epsilon"%string ∈ fields c).
      { apply Hall. apply (bool_decide_unpack _). vm_compute. exact I. }
      destruct c; try reflexivity; exfalso; revert Heps;
        apply (bool_decide_unpack _); vm_compute; exact I.
    + intros -> name Hin.
      repeat (apply elem_of_cons in Hin as [->|Hin];
              [apply (bool_decide_unpack _); vm_compute; exact I|]).
      apply elem_of_nil in Hin. contradiction.
  - intros a. reflexivity.
Qed.
